(** * Churn prediction pipeline: feature preparation, training, evaluation

    Shallow embedding of [src/src/churn_model.py] (class
    [ChurnPredictionModel]) together with the pandas / numpy primitives the
    class calls.  Numeric columns are read as float64; here a float64 value
    is an exact rational, an infinity or NaN, so rounding, overflow and the
    wrap-around of an int64 column are not modelled.  The wall clock, the
    date parser, [np.log10] and every scikit-learn entry point are external
    to the repository and enter as class parameters. *)

From Stdlib Require Import QArith Qround ZArith Lia Lqa Sorted Permutation.
From stdpp Require Import gmap strings list.

(** ** Values *)

(** A float64 as pandas sees it: a finite number, a signed infinity, or NaN. *)
Inductive float64 : Type :=
| NaN
| Fin (q : Q)
| Inf (negative : bool).

(** One cell of a DataFrame.  [Float x] is an entry of a numeric column,
    [Float NaN] its missing entry (NaN, or NaT in a column of dates);
    [Str s] is a text; [Time t] is a timezone-naive timestamp in nanoseconds
    since the epoch; [Null] is [None], which only a column of dtype object
    can hold. *)
Inductive cell : Type :=
| Float (x : float64)
| Str (s : string)
| Time (t : Z)
| Null.

Inductive exn : Type :=
| KeyError (key : string)
| TypeError
| IndexError
| NotFittedError
| LibraryError (msg : string).

Inductive outcome (A : Type) : Type :=
| Return (a : A)
| Raise (e : exn).
Arguments Return {A} a.
Arguments Raise {A} e.

Definition obind {A B} (m : outcome A) (k : A -> outcome B) : outcome B :=
  match m with
  | Return a => k a
  | Raise e => Raise e
  end.

Definition raise_if (o : option exn) : outcome unit :=
  match o with
  | Some e => Raise e
  | None => Return tt
  end.

Notation "'let!' x ':=' m 'in' k" := (obind m (fun x => k))
  (at level 10, x name, m at level 100, k at level 200,
   format "'[v' 'let!'  x  ':='  m  'in' '/' k ']'").

(** ** float64 arithmetic (numpy semantics on the extended rationals) *)

Definition Qneg (q : Q) : bool := negb (Qle_bool 0 q).

Definition fadd (x y : float64) : float64 :=
  match x, y with
  | NaN, _ => NaN
  | _, NaN => NaN
  | Fin a, Fin b => Fin (a + b)
  | Inf s, Fin _ => Inf s
  | Fin _, Inf s => Inf s
  | Inf s, Inf t => if Bool.eqb s t then Inf s else NaN
  end.

Definition fdiv (x y : float64) : float64 :=
  match x, y with
  | NaN, _ => NaN
  | _, NaN => NaN
  | Fin a, Fin b =>
      if Qeq_bool b 0
      then (if Qeq_bool a 0 then NaN else Inf (Qneg a))
      else Fin (a / b)
  | Fin _, Inf _ => Fin 0
  | Inf s, Fin b => Inf (xorb s (Qneg b))
  | Inf _, Inf _ => NaN
  end.

(** [x ** 2] on a float64 column.  An int64 column gives the same value
    while the square stays below 2^63; beyond that it wraps around, which is
    not modelled. *)
Definition fpow2 (x : float64) : float64 :=
  match x with
  | NaN => NaN
  | Fin a => Fin (a * a)
  | Inf _ => Inf false
  end.

(** [x <= y]; every comparison with NaN is False. *)
Definition fle (x y : float64) : bool :=
  match x, y with
  | NaN, _ => false
  | _, NaN => false
  | Fin a, Fin b => Qle_bool a b
  | Inf true, _ => true
  | Inf false, Inf false => true
  | Inf false, _ => false
  | Fin _, Inf t => negb t
  end.

Definition flt (x y : float64) : bool := fle x y && negb (fle y x).

(** [x >= y] *)
Definition fge (x y : float64) : bool := fle y x.

Definition of_Z (z : Z) : float64 := Fin (inject_Z z).

Definition of_bool (b : bool) : float64 := if b then of_Z 1 else of_Z 0.

(** ** Series *)

Definition isna (c : cell) : bool :=
  match c with
  | Float NaN => true
  | Null => true
  | _ => false
  end.

Definition is_null (c : cell) : bool :=
  match c with
  | Null => true
  | _ => false
  end.

(** An operand of [+], [/] or [**]: a string or a timestamp raises; on a
    column of dtype object pandas applies the operator to the entries that
    are not missing, so [None] gives NaN. *)
Definition as_float (c : cell) : outcome float64 :=
  match c with
  | Float x => Return x
  | Null => Return NaN
  | _ => Raise TypeError
  end.

(** A numpy ufunc needs a numeric dtype: on a column that holds [None], and
    so has dtype object, it raises TypeError. *)
Definition ufunc_operand (s : list cell) : outcome unit :=
  if existsb is_null s then Raise TypeError else Return tt.

Fixpoint to_floats (s : list cell) : outcome (list float64) :=
  match s with
  | [] => Return []
  | c :: s' =>
      let! x := as_float c in
      let! xs := to_floats s' in
      Return (x :: xs)
  end.

(** [Series.fillna(v)] *)
Definition fillna1 (v x : float64) : float64 :=
  match x with
  | NaN => v
  | _ => x
  end.

Definition fillna (v : float64) (s : list float64) : list float64 :=
  fillna1 v <$> s.

(** [Series.clip(lo, hi)]; NaN stays NaN. *)
Definition clip1 (lo hi : float64) (x : float64) : float64 :=
  match x with
  | NaN => NaN
  | _ => if flt x lo then lo else if flt hi x then hi else x
  end.

Definition clip (lo hi : float64) (s : list float64) : list float64 :=
  clip1 lo hi <$> s.

(** Insertion sort, ascending by [fle]. *)
Fixpoint insert_sorted (x : float64) (l : list float64) : list float64 :=
  match l with
  | [] => [x]
  | y :: l' => if fle x y then x :: y :: l' else y :: insert_sorted x l'
  end.

Fixpoint sort (l : list float64) : list float64 :=
  match l with
  | [] => []
  | x :: l' => insert_sorted x (sort l')
  end.

Definition notna_f (x : float64) : bool :=
  match x with
  | NaN => false
  | _ => true
  end.

(** [Series.median()]: NaN entries are skipped; the middle value of the
    sorted rest, or the mean of the two middle values; NaN when nothing is
    left. *)
Definition median (s : list float64) : float64 :=
  let v := sort (List.filter notna_f s) in
  let n := length v in
  if Nat.eqb n 0 then NaN
  else if Nat.even n
       then fdiv (fadd (nth (n / 2 - 1) v NaN) (nth (n / 2) v NaN)) (of_Z 2)
       else nth (n / 2) v NaN.

(** [pd.cut(x, bins, labels)], right-closed intervals: the label of the
    first interval [(lo, hi]] holding [x]; NaN outside every interval. *)
Fixpoint cut1 (bins labels : list Q) (x : float64) : float64 :=
  match bins, labels with
  | lo :: ((hi :: _) as bins'), lab :: labels' =>
      if flt (Fin lo) x && fle x (Fin hi) then Fin lab
      else cut1 bins' labels' x
  | _, _ => NaN
  end.

Definition cut (s : list float64) (bins labels : list Q) : list float64 :=
  cut1 bins labels <$> s.

(** ** Timestamps *)

Definition day_ns : Z := 86400 * 1000000000.

(** [Timestamp.normalize()]: midnight of the same day. *)
Definition normalize (t : Z) : Z := (t - t `mod` day_ns)%Z.

(** [(ref - last).dt.days]: whole days, rounded down; NaN for NaT. *)
Definition dt_days (ref : Z) (last : option Z) : float64 :=
  match last with
  | Some t => of_Z ((ref - t) `div` day_ns)
  | None => NaN
  end.

(** ** DataFrame *)

(** Column labels in order, and the rows; a row maps a column label to its
    cell, and an entry a row lacks reads as missing. *)
Record DataFrame : Type := {
  columns : list string;
  rows : list (gmap string cell)
}.

(** [df.empty]: some axis has length zero. *)
Definition empty (df : DataFrame) : bool :=
  match columns df, rows df with
  | [], _ => true
  | _, [] => true
  | _, _ => false
  end.

Definition has_column (df : DataFrame) (c : string) : bool :=
  bool_decide (c ∈ columns df).

Definition at_ (r : gmap string cell) (c : string) : cell :=
  default (Float NaN) (r !! c).

(** [df[c]] *)
Definition getitem (df : DataFrame) (c : string) : outcome (list cell) :=
  if has_column df c then Return ((fun r => at_ r c) <$> rows df)
  else Raise (KeyError c).

(** [df[c] = s] for a series aligned with the rows. *)
Definition setitem (df : DataFrame) (c : string) (s : list float64) : DataFrame :=
  {| columns := if has_column df c then columns df else columns df ++ [c];
     rows := zip_with (fun r x => <[c := Float x]> r) (rows df) s |}.

(** [df[c] = v] for a scalar. *)
Definition setitem_scalar (df : DataFrame) (c : string) (v : float64) : DataFrame :=
  setitem df c (replicate (length (rows df)) v).

(** [df.dropna(subset=[c])] *)
Definition dropna (df : DataFrame) (c : string) : outcome DataFrame :=
  if has_column df c
  then Return {| columns := columns df;
                 rows := List.filter (fun r => negb (isna (at_ r c))) (rows df) |}
  else Raise (KeyError c).

Definition fillna_cell (v : float64) (c : cell) : cell :=
  match c with
  | Float NaN => Float v
  | Null => Float v
  | _ => c
  end.

(** [df[cols].fillna(v)] as a matrix: one list per row, in the order of
    [cols]. *)
Fixpoint check_columns (df : DataFrame) (cols : list string) : outcome unit :=
  match cols with
  | [] => Return tt
  | c :: cols' => if has_column df c then check_columns df cols' else Raise (KeyError c)
  end.

Definition select_fillna (df : DataFrame) (cols : list string) (v : float64)
  : outcome (list (list cell)) :=
  let! _u := check_columns df cols in
  Return ((fun r => (fun c => fillna_cell v (at_ r c)) <$> cols) <$> rows df).

(** [np.unique(y)]: the distinct values. *)
Definition cell_eqb (a b : cell) : bool :=
  match a, b with
  | Float NaN, Float NaN => true
  | Float (Fin p), Float (Fin q) => Qeq_bool p q
  | Float (Inf s), Float (Inf t) => Bool.eqb s t
  | Str s, Str t => bool_decide (s = t)
  | Time s, Time t => Z.eqb s t
  | Null, Null => true
  | _, _ => false
  end.

Fixpoint np_unique (y : list cell) : list cell :=
  match y with
  | [] => []
  | c :: y' => if existsb (cell_eqb c) y' then np_unique y' else c :: np_unique y'
  end.

(** ** External collaborators *)

(** The numeric and date routines of numpy / pandas that are not modelled:
    [np_log10] on positive numbers, the parser behind [pd.to_datetime], and
    [datetime_failure]: the exception that converting a column with
    [pd.to_datetime(col, errors="coerce")] and subtracting the result from
    the timezone-naive reference date raises, if any.  That is TypeError
    when the column holds, or parses to, timezone-aware timestamps, and
    [None] when it converts to timezone-naive ones. *)
Class Runtime : Type := {
  np_log10 : Q -> Q;
  parse_datetime : cell -> option Z;
  datetime_failure : list cell -> option exn
}.

(** The scikit-learn entry points the class calls.  Each may raise. *)
Class Sklearn : Type := {
  scaler_params : Type;
  classifier : Type;
  train_test_split :
    list (list cell) -> list cell ->
    outcome (list (list cell) * list (list cell) * list cell * list cell);
  StandardScaler_fit : list (list cell) -> outcome scaler_params;
  StandardScaler_transform :
    scaler_params -> list (list cell) -> outcome (list (list float64));
  LogisticRegression_fit : list (list float64) -> list cell -> outcome classifier;
  coef_ : classifier -> list float64;
  predict : classifier -> list (list float64) -> outcome (list cell);
  predict_proba : classifier -> list (list float64) -> outcome (list (list float64));
  confusion_matrix : list cell -> list cell -> outcome (list (list Z));
  accuracy_score : list cell -> list cell -> outcome float64;
  roc_auc_score : list cell -> list float64 -> outcome float64;
  classification_report : list cell -> list cell -> list string -> outcome string;
  roc_curve : list cell -> list float64 -> outcome (list float64 * list float64)
}.

Section Model.
Context `{RT : Runtime} `{SK : Sklearn}.

(** [np.log10] on a float64: -inf at zero, NaN below. *)
Definition log10 (x : float64) : float64 :=
  match x with
  | NaN => NaN
  | Fin q => if Qeq_bool q 0 then Inf true
             else if Qneg q then NaN
             else Fin (np_log10 q)
  | Inf true => NaN
  | Inf false => Inf false
  end.

(** [pd.to_datetime(c, errors="coerce")]: a missing entry stays NaT, a
    timestamp is kept, anything else goes through the parser and becomes
    NaT when that fails. *)
Definition to_datetime (c : cell) : option Z :=
  match c with
  | Float NaN => None
  | Null => None
  | Time t => Some t
  | _ => parse_datetime c
  end.

(** ** The object *)

Inductive estimator : Type :=
| NoModel
| Unfitted
| Fitted (clf : classifier).

Record ChurnPredictionModel : Type := {
  output_dir : string;
  scaler : option scaler_params;
  model : estimator;
  feature_names_ : list string;
  _trained : bool
}.

(** The object together with what the process has printed so far. *)
Record World : Type := {
  self : ChurnPredictionModel;
  console : list string
}.

Definition M (A : Type) : Type := World -> outcome A * World.

Definition ret {A} (a : A) : M A := fun w => (Return a, w).

Definition bind {A B} (m : M A) (k : A -> M B) : M B :=
  fun w =>
    match m w with
    | (Return a, w') => k a w'
    | (Raise e, w') => (Raise e, w')
    end.

Definition lift {A} (o : outcome A) : M A := fun w => (o, w).

Definition print (s : string) : M unit :=
  fun w => (Return tt, {| self := self w; console := console w ++ [s] |}).

Definition get_self : M ChurnPredictionModel := fun w => (Return (self w), w).

Definition modify (f : ChurnPredictionModel -> ChurnPredictionModel) : M unit :=
  fun w => (Return tt, {| self := f (self w); console := console w |}).

Definition set_feature_names (l : list string) (s : ChurnPredictionModel) :=
  {| output_dir := output_dir s; scaler := scaler s; model := model s;
     feature_names_ := l; _trained := _trained s |}.

Definition set_scaler (p : scaler_params) (s : ChurnPredictionModel) :=
  {| output_dir := output_dir s; scaler := Some p; model := model s;
     feature_names_ := feature_names_ s; _trained := _trained s |}.

Definition set_model (m : estimator) (s : ChurnPredictionModel) :=
  {| output_dir := output_dir s; scaler := scaler s; model := m;
     feature_names_ := feature_names_ s; _trained := _trained s |}.

Definition set_trained (b : bool) (s : ChurnPredictionModel) :=
  {| output_dir := output_dir s; scaler := scaler s; model := model s;
     feature_names_ := feature_names_ s; _trained := b |}.

Definition is_absolute (path : string) : bool := String.prefix "/" path.

(** [ChurnPredictionModel(output_dir)]: a relative directory is taken
    below [project_root], the parent of the directory of the module's file.
    The directory is created on disk, which is not modelled; the scaler is
    there but not fitted. *)
Definition init (project_root dir : string) : ChurnPredictionModel :=
  {| output_dir := if is_absolute dir then dir
                   else project_root +:+ "/" +:+ dir;
     scaler := None; model := NoModel;
     feature_names_ := []; _trained := false |}.

End Model.

Notation "'let*' x ':=' m 'in' k" := (bind m (fun x => k))
  (at level 10, x name, m at level 100, k at level 200,
   format "'[v' 'let*'  x  ':='  m  'in' '/' k ']'").
Notation "m1 ';;' m2" := (bind m1 (fun _ => m2))
  (at level 100, right associativity).

Section Methods.
Context `{RT : Runtime} `{SK : Sklearn}.

Definition feature_cols : list string :=
  ["order_count_12m"; "revenue_12m"; "days_since_last_order";
   "avg_order_value"; "log_revenue"; "order_count_sq"; "recency_bucket";
   "is_high_value"; "orders_per_month"].

(** The columns assigned by lines 70-76. *)
Definition derived_names : list string :=
  ["avg_order_value"; "log_revenue"; "order_count_sq"; "recency_bucket";
   "is_high_value"; "orders_per_month"; "revenue_per_order"].

(** Lines 63-69 of [prepare_features]: the recency column.  [now] is the
    reading of the wall clock taken by [pd.Timestamp("now")].  Lines 64-66
    raise when the dates cannot be subtracted from the reference date. *)
Definition days_column (now : Z) (out : DataFrame) : outcome DataFrame :=
  if has_column out "last_order_date" then
    let! raw := getitem out "last_order_date" in
    let! _u := raise_if (datetime_failure raw) in
    let last := to_datetime <$> raw in
    let ref := normalize now in
    let out := setitem out "days_since_last_order" (dt_days ref <$> last) in
    let! d := getitem out "days_since_last_order" in
    let! d := to_floats d in
    Return (setitem out "days_since_last_order"
              (clip (of_Z 0) (of_Z 999) (fillna (of_Z 999) d)))
  else
    Return (setitem_scalar out "days_since_last_order" (of_Z 999)).

(** Lines 70-76 of [prepare_features]: the remaining derived columns, one
    assignment per line of the source. *)
Definition derived_columns (out : DataFrame) : outcome DataFrame :=
  let! rev := getitem out "revenue_12m" in
  let! cnt := getitem out "order_count_12m" in
  let! cnt := to_floats cnt in
  let! rev := to_floats rev in
  let out := setitem out "avg_order_value"
               (zip_with fdiv rev ((fun n => fadd n (of_Z 1)) <$> cnt)) in
  let! rev := getitem out "revenue_12m" in
  let! _u := ufunc_operand rev in
  let! rev := to_floats rev in
  let out := setitem out "log_revenue"
               ((fun x => log10 (fadd x (of_Z 1))) <$> rev) in
  let! cnt := getitem out "order_count_12m" in
  let! cnt := to_floats cnt in
  let out := setitem out "order_count_sq" (fpow2 <$> cnt) in
  let! d := getitem out "days_since_last_order" in
  let! d := to_floats d in
  let out := setitem out "recency_bucket"
               (cut d [-1; 30; 60; 90; 999]%Q [1; 2; 3; 4]%Q) in
  let! rev := getitem out "revenue_12m" in
  let! rev := to_floats rev in
  let out := setitem out "is_high_value"
               ((fun x => of_bool (fge x (median rev))) <$> rev) in
  let! cnt := getitem out "order_count_12m" in
  let! cnt := to_floats cnt in
  let out := setitem out "orders_per_month"
               ((fun n => fdiv n (of_Z 12)) <$> cnt) in
  let! rev := getitem out "revenue_12m" in
  let! cnt := getitem out "order_count_12m" in
  let! cnt := to_floats cnt in
  let! rev := to_floats rev in
  Return (setitem out "revenue_per_order"
            (zip_with fdiv rev ((fun n => fadd n (of_Z 1)) <$> cnt))).

(** [ChurnPredictionModel.prepare_features] *)
Definition prepare_features (now : Z) (df : DataFrame) : M DataFrame :=
  if empty df then ret df
  else
    let out := df in
    let* out := lift (days_column now out) in
    let* out := lift (derived_columns out) in
    let available := List.filter (has_column out) feature_cols in
    modify (set_feature_names available) ;;
    lift (dropna out "is_churned").

(** [ChurnPredictionModel.train_model]; [cols] is [X.columns]. *)
Definition train_model (cols : list string) (X : list (list cell)) (y : list cell)
  : M classifier :=
  modify (set_feature_names cols) ;;
  let* p := lift (StandardScaler_fit X) in
  modify (set_scaler p) ;;
  let* X_scaled := lift (StandardScaler_transform p X) in
  modify (set_model Unfitted) ;;
  let* clf := lift (LogisticRegression_fit X_scaled y) in
  modify (set_model (Fitted clf)) ;;
  modify (set_trained true) ;;
  ret clf.

Definition path_in (s : ChurnPredictionModel) (file : string) : string :=
  output_dir s +:+ "/" +:+ file.

(** [plot_feature_importance(save=True)] *)
Definition plot_feature_importance : M unit :=
  let* s := get_self in
  match _trained s, model s with
  | true, Fitted _ =>
      print ("Saved: " +:+ path_in s "churn_feature_importance.png")
  | true, Unfitted =>
      lift (Raise NotFittedError)
  | _, _ =>
      print "plot_feature_importance: model not trained, skipping"
  end.

(** [plot_confusion_matrix(cm, save=True)] *)
Definition plot_confusion_matrix (cm : list (list Z)) : M unit :=
  let* s := get_self in
  print ("Saved: " +:+ path_in s "churn_confusion_matrix.png").

(** [plot_roc_curve(y_test, y_pred_proba, roc_auc, save=True)] *)
Definition plot_roc_curve (y_test : list cell) (y_pred_proba : list float64)
    (roc_auc : float64) : M unit :=
  let* _c := lift (roc_curve y_test y_pred_proba) in
  let* s := get_self in
  print ("Saved: " +:+ path_in s "churn_roc_curve.png").

Inductive metric : Type :=
| Score (x : float64)
| Text (s : string)
| Counts (m : list (list Z)).

(** [save_model_results(results)] with the default path. *)
Definition save_model_results (results : gmap string metric) : M string :=
  let* s := get_self in
  let path := path_in s "churn_model_results.txt" in
  print ("Results saved: " +:+ path) ;;
  ret path.

(** [proba[:, 1]] *)
Fixpoint column1 (p : list (list float64)) : outcome (list float64) :=
  match p with
  | [] => Return []
  | row :: p' =>
      match row with
      | _ :: x :: _ =>
          let! xs := column1 p' in
          Return (x :: xs)
      | _ => Raise IndexError
      end
  end.

Definition is_nil {A} (l : list A) : bool :=
  match l with
  | [] => true
  | _ => false
  end.

(** Line 253: ROC-AUC, or 0.0 when the test labels hold a single class. *)
Definition roc_auc_or_zero (y_test : list cell) (y_pred_proba : list float64)
  : outcome float64 :=
  if (1 <? length (np_unique y_test))%nat
  then roc_auc_score y_test y_pred_proba
  else Return (Fin 0).

(** Lines 248-265 of [train_and_evaluate]: scoring the held-out split. *)
Definition evaluate (X_test : list (list cell)) (y_test : list cell)
  : M (gmap string metric) :=
  let* s := get_self in
  let* X_test_scaled :=
    lift (match scaler s with
          | Some p => StandardScaler_transform p X_test
          | None => Raise NotFittedError
          end) in
  let* clf :=
    lift (match model s with
          | Fitted clf => Return clf
          | _ => Raise NotFittedError
          end) in
  let* y_pred := lift (predict clf X_test_scaled) in
  let* proba := lift (predict_proba clf X_test_scaled) in
  let* y_pred_proba := lift (column1 proba) in
  let* cm := lift (confusion_matrix y_test y_pred) in
  let* acc := lift (accuracy_score y_test y_pred) in
  let* roc_auc := lift (roc_auc_or_zero y_test y_pred_proba) in
  let* report :=
    lift (classification_report y_test y_pred ["Not churned"; "Churned"]) in
  plot_feature_importance ;;
  plot_confusion_matrix cm ;;
  plot_roc_curve y_test y_pred_proba roc_auc ;;
  let results : gmap string metric :=
    <["confusion_matrix" := Counts cm]>
      (<["classification_report" := Text report]>
         (<["roc_auc" := Score roc_auc]>
            (<["accuracy" := Score acc]> ∅))) in
  save_model_results results ;;
  ret results.

(** [ChurnPredictionModel.train_and_evaluate] *)
Definition train_and_evaluate (now : Z) (df : DataFrame) : M (gmap string metric) :=
  let* prepared := prepare_features now df in
  if empty prepared || negb (has_column prepared "is_churned") then
    print "train_and_evaluate: no valid data after prepare_features" ;;
    ret ∅
  else
    let* s := get_self in
    let cols := List.filter (has_column prepared) (feature_names_ s) in
    let cols :=
      if is_nil cols then List.filter (has_column prepared) feature_cols
      else cols in
    if is_nil cols then
      print "train_and_evaluate: no feature columns found" ;;
      ret ∅
    else
      let* X := lift (select_fillna prepared cols (of_Z 0)) in
      let* y := lift (getitem prepared "is_churned") in
      let* split := lift (train_test_split X y) in
      let '(X_train, X_test, y_train, y_test) := split in
      train_model cols X_train y_train ;;
      evaluate X_test y_test.

End Methods.

(** ** Row-wise view of [prepare_features]

    What lines 63-76 do to one row, one insertion per assignment of the
    source.  [has_date] says whether the input has a [last_order_date]
    column, [med] is the median of the revenue column. *)

Definition numf (c : cell) : float64 :=
  match c with
  | Float x => x
  | _ => NaN
  end.

Definition is_float (c : cell) : bool :=
  match c with
  | Float _ => true
  | _ => false
  end.

(** What arithmetic accepts: a number, or [None], which it reads as NaN. *)
Definition numeric (c : cell) : bool :=
  match c with
  | Float _ => true
  | Null => true
  | _ => false
  end.

Definition put (c : string) (h : gmap string cell -> float64)
    (r : gmap string cell) : gmap string cell :=
  <[c := Float (h r)]> r.

Definition num (c : string) (r : gmap string cell) : float64 := numf (at_ r c).

Definition labelled (r : gmap string cell) : bool := negb (isna (at_ r "is_churned")).

(** The revenue column of a batch, as numbers. *)
Definition revenue (df : DataFrame) : list float64 := num "revenue_12m" <$> rows df.

Section RowView.
Context `{RT : Runtime}.

Definition days_row (now : Z) (has_date : bool) (r : gmap string cell)
  : gmap string cell :=
  if has_date then
    put "days_since_last_order"
      (fun r' => clip1 (of_Z 0) (of_Z 999)
                   (fillna1 (of_Z 999) (num "days_since_last_order" r')))
      (put "days_since_last_order"
         (fun r' => dt_days (normalize now) (to_datetime (at_ r' "last_order_date")))
         r)
  else put "days_since_last_order" (fun _ => of_Z 999) r.

Definition derived_row (med : float64) (r : gmap string cell) : gmap string cell :=
  put "revenue_per_order"
    (fun r => fdiv (num "revenue_12m" r) (fadd (num "order_count_12m" r) (of_Z 1)))
  (put "orders_per_month" (fun r => fdiv (num "order_count_12m" r) (of_Z 12))
  (put "is_high_value" (fun r => of_bool (fge (num "revenue_12m" r) med))
  (put "recency_bucket"
     (fun r => cut1 [-1; 30; 60; 90; 999]%Q [1; 2; 3; 4]%Q
                 (num "days_since_last_order" r))
  (put "order_count_sq" (fun r => fpow2 (num "order_count_12m" r))
  (put "log_revenue" (fun r => log10 (fadd (num "revenue_12m" r) (of_Z 1)))
  (put "avg_order_value"
     (fun r => fdiv (num "revenue_12m" r) (fadd (num "order_count_12m" r) (of_Z 1)))
     r)))))).

Definition prepared_row (now : Z) (has_date : bool) (med : float64)
    (r : gmap string cell) : gmap string cell :=
  derived_row med (days_row now has_date r).

End RowView.

(** ** A small configuration for running the model

    Stand-ins for the external routines, used only to evaluate the model on
    concrete tables: a coarse base-10 logarithm, a parser that accepts
    nothing (dates enter as timestamps), a date column that counts as
    timezone-aware when one of its texts ends in a UTC offset, and a
    miniature learner whose split keeps the order of the rows and is not
    stratified. *)

Definition has_utc_offset (c : cell) : bool :=
  match c with
  | Str s => String.eqb (String.substring (String.length s - 6) 6 s) "+00:00"
  | _ => false
  end.

Definition demo_runtime : Runtime :=
  {| np_log10 := fun q => (inject_Z (Z.log2 (Qfloor q)) * (30103 # 100000))%Q;
     parse_datetime := fun _ => None;
     datetime_failure := fun col =>
       if existsb has_utc_offset col then Some TypeError else None |}.

Definition demo_split (X : list (list cell)) (y : list cell)
  : outcome (list (list cell) * list (list cell) * list cell * list cell) :=
  let n := length X in
  let n_test := ((n + 3) / 4)%nat in
  let n_train := (n - n_test)%nat in
  if Nat.eqb n_train 0 then Raise (LibraryError "train set would be empty")
  else Return (take n_train X, drop n_train X, take n_train y, drop n_train y).

Definition finite_or_zero (c : cell) : Q :=
  match c with
  | Float (Fin q) => q
  | _ => 0%Q
  end.

Definition column_sums (X : list (list cell)) : list Q :=
  foldr (fun row acc =>
           zip_with Qplus (finite_or_zero <$> row)
             (acc ++ replicate (length row - length acc) 0%Q))
        [] X.

Definition demo_fit (X : list (list cell)) : outcome (list Q) :=
  match X with
  | [] => Raise (LibraryError "no samples")
  | _ => Return ((fun t => Qred (t / inject_Z (Z.of_nat (length X)))%Q) <$> column_sums X)
  end.

Definition demo_transform (means : list Q) (X : list (list cell))
  : outcome (list (list float64)) :=
  Return ((fun row => zip_with (fun c m => Fin (Qred (finite_or_zero c - m)%Q)) row means) <$> X).

Definition count_pairs (a b : cell) (y_true y_pred : list cell) : Z :=
  Z.of_nat (length (List.filter (fun p => cell_eqb (fst p) a && cell_eqb (snd p) b)
                      (zip y_true y_pred))).

Definition demo_sklearn : Sklearn :=
  {| scaler_params := list Q;
     classifier := list float64;
     train_test_split := demo_split;
     StandardScaler_fit := demo_fit;
     StandardScaler_transform := demo_transform;
     LogisticRegression_fit := fun X y =>
       if (1 <? length (np_unique y))%nat
       then Return (replicate (length (hd [] X)) (Fin 0))
       else Raise (LibraryError "needs samples of at least 2 classes");
     coef_ := fun clf => clf;
     predict := fun _ X => Return ((fun _ => Float (of_Z 0)) <$> X);
     predict_proba := fun _ X => Return ((fun _ => [Fin (1 # 2); Fin (1 # 2)]) <$> X);
     confusion_matrix := fun y_true y_pred =>
       Return [[count_pairs (Float (of_Z 0)) (Float (of_Z 0)) y_true y_pred;
                count_pairs (Float (of_Z 0)) (Float (of_Z 1)) y_true y_pred];
               [count_pairs (Float (of_Z 1)) (Float (of_Z 0)) y_true y_pred;
                count_pairs (Float (of_Z 1)) (Float (of_Z 1)) y_true y_pred]];
     accuracy_score := fun y_true y_pred =>
       Return (Fin (Qred (inject_Z (Z.of_nat (length (List.filter
                             (fun p => cell_eqb (fst p) (snd p)) (zip y_true y_pred))))
                          / inject_Z (Z.of_nat (length y_true)))%Q));
     roc_auc_score := fun y_true _ =>
       if (1 <? length (np_unique y_true))%nat then Return (Fin (1 # 2))
       else Raise (LibraryError "only one class present in y_true");
     classification_report := fun y_true y_pred target_names =>
       if Nat.eqb (length (np_unique (y_true ++ y_pred))) (length target_names)
       then Return "report"%string
       else Raise (LibraryError
                     "Number of classes does not match size of target_names");
     roc_curve := fun _ _ => Return ([Fin 0; Fin 1], [Fin 0; Fin 1]) |}.

Definition demo_world : @World demo_sklearn :=
  {| self := init "/srv/shop" "reports"; console := [] |}.

(** A clock reading: day 20000 since the epoch, three hours in. *)
Definition demo_now : Z := (20000 * day_ns + 3 * 3600 * 1000000000)%Z.

Definition days_ago (d : Z) : cell := Time ((20000 - d) * day_ns + 1)%Z.

Definition mk_row (id : Z) (cnt rev : Z) (last : cell) (churned : cell)
  : gmap string cell :=
  list_to_map
    [("customer_id"%string, Float (of_Z id));
     ("order_count_12m"%string, Float (of_Z cnt));
     ("revenue_12m"%string, Float (of_Z rev));
     ("last_order_date"%string, last);
     ("is_churned"%string, churned)].

Definition raw_columns : list string :=
  ["customer_id"; "order_count_12m"; "revenue_12m"; "last_order_date"; "is_churned"].

(** The batch of the median example: revenues 10, 20, 30, 40, 50. *)
Definition batch5 : DataFrame :=
  {| columns := raw_columns;
     rows := [mk_row 1 1 10 (days_ago 0) (Float (of_Z 0));
              mk_row 2 0 20 (days_ago 45) (Float (of_Z 0));
              mk_row 3 4 30 (days_ago 95) (Float (of_Z 1));
              mk_row 4 2 40 (Str "n/a") (Float (of_Z 1));
              mk_row 5 7 50 (Float NaN) (Float (of_Z 0))] |}.

(** Two labelled customers and two whose label is missing. *)
Definition batch_unlabelled : DataFrame :=
  {| columns := raw_columns;
     rows := [mk_row 1 1 10 (days_ago 5) (Float (of_Z 0));
              mk_row 2 3 20 (days_ago 100) (Float (of_Z 1));
              mk_row 3 2 1000 (days_ago 7) (Float NaN);
              mk_row 4 9 2000 (days_ago 9) (Float NaN)] |}.

(** Every label missing: nothing survives feature preparation. *)
Definition batch_no_labels : DataFrame :=
  {| columns := raw_columns;
     rows := [mk_row 1 1 10 (days_ago 5) (Float NaN);
              mk_row 2 3 20 (days_ago 100) (Float NaN)] |}.

(** Twelve customers, four of them churned. *)
Definition batch12 : DataFrame :=
  {| columns := raw_columns;
     rows := [mk_row 1 5 100 (days_ago 5) (Float (of_Z 0));
              mk_row 2 1 20 (days_ago 120) (Float (of_Z 1));
              mk_row 3 3 70 (days_ago 10) (Float (of_Z 0));
              mk_row 4 8 300 (days_ago 15) (Float (of_Z 0));
              mk_row 5 2 40 (days_ago 200) (Float (of_Z 1));
              mk_row 6 6 150 (days_ago 20) (Float (of_Z 0));
              mk_row 7 4 90 (days_ago 25) (Float (of_Z 0));
              mk_row 8 1 15 (days_ago 95) (Float (of_Z 1));
              mk_row 9 7 210 (days_ago 30) (Float (of_Z 0));
              mk_row 10 2 35 (days_ago 35) (Float (of_Z 0));
              mk_row 11 1 10 (days_ago 150) (Float (of_Z 1));
              mk_row 12 9 500 (days_ago 40) (Float (of_Z 0))] |}.

(** Running the model in the small configuration. *)
Definition demo_prepare (df : DataFrame) : outcome DataFrame * World :=
  prepare_features (RT:=demo_runtime) (SK:=demo_sklearn) demo_now df demo_world.

Definition demo_prepared (df : DataFrame) : DataFrame :=
  match fst (demo_prepare df) with
  | Return o => o
  | Raise _ => {| columns := []; rows := [] |}
  end.

Definition demo_row (df : DataFrame) (i : nat) : gmap string cell :=
  nth i (rows (demo_prepared df)) ∅.

Definition demo_run (df : DataFrame) : outcome (gmap string metric) * World :=
  train_and_evaluate (RT:=demo_runtime) (SK:=demo_sklearn) demo_now df demo_world.

Definition demo_results (df : DataFrame) : gmap string metric :=
  match fst (demo_run df) with
  | Return res => res
  | Raise _ => ∅
  end.

(** The matrix and the labels that line 244-245 take from the prepared
    table. *)
Definition design_matrix (prepared : DataFrame) : list (list cell) :=
  (fun r => (fun c => fillna_cell (of_Z 0) (at_ r c)) <$> feature_cols)
    <$> rows prepared.

Definition labels (prepared : DataFrame) : list cell :=
  (fun r => at_ r "is_churned") <$> rows prepared.

(** Twelve customers with gaps in the aggregates: one revenue, one order
    count and one date are missing. *)
Definition batch12_gaps : DataFrame :=
  {| columns := raw_columns;
     rows := [mk_row 1 5 100 (days_ago 5) (Float (of_Z 0));
              <["revenue_12m" := Float NaN]>
                (mk_row 2 1 20 (days_ago 120) (Float (of_Z 1)));
              <["order_count_12m" := Float NaN]>
                (mk_row 3 3 70 (days_ago 10) (Float (of_Z 0)));
              mk_row 4 8 300 (Float NaN) (Float (of_Z 0));
              mk_row 5 2 40 (days_ago 200) (Float (of_Z 1));
              mk_row 6 6 150 (days_ago 20) (Float (of_Z 0));
              mk_row 7 4 90 (days_ago 25) (Float (of_Z 0));
              mk_row 8 1 15 (days_ago 95) (Float (of_Z 1));
              mk_row 9 7 210 (days_ago 30) (Float (of_Z 0));
              mk_row 10 2 35 (days_ago 35) (Float (of_Z 0));
              mk_row 11 1 10 (days_ago 150) (Float (of_Z 1));
              mk_row 12 9 500 (days_ago 40) (Float (of_Z 0))] |}.

(** A test partition of two customers who both stayed. *)
Definition one_class_X : list (list cell) :=
  [[Float (of_Z 3); Float (of_Z 70)]; [Float (of_Z 8); Float (of_Z 300)]].

Definition one_class_y : list cell := [Float (of_Z 0); Float (of_Z 0)].

(** The same with all nine features: customers 10 and 12 of [batch12], who
    are not among the nine that the small split trains on. *)
Definition stayers_X : list (list cell) :=
  (fun i => nth i (design_matrix (demo_prepared batch12)) []) <$> [9; 11]%nat.

(** The recency bucket of a whole number of days. *)
Definition bucket (d : Z) : Z :=
  if (d <=? 30)%Z then 1 else if (d <=? 60)%Z then 2
  else if (d <=? 90)%Z then 3 else 4.

(** A computation that never assigns to an attribute of the object. *)
Definition keeps_self `{SK : Sklearn} {A} (m : M A) : Prop :=
  forall w, self (snd (m w)) = self w.

(** The lines a finished evaluation prints. *)
Definition saved_lines (dir : string) : list string :=
  ["Saved: " +:+ (dir +:+ "/" +:+ "churn_feature_importance.png");
   "Saved: " +:+ (dir +:+ "/" +:+ "churn_confusion_matrix.png");
   "Saved: " +:+ (dir +:+ "/" +:+ "churn_roc_curve.png");
   "Results saved: " +:+ (dir +:+ "/" +:+ "churn_model_results.txt")].

Definition is_fin (x : float64) : Prop := exists q, x = Fin q.

Definition ascending (l : list float64) : Prop :=
  StronglySorted (fun a b => fle a b = true) l.






(** A single labelled customer: nothing is left for the training partition. *)
Definition batch1 : DataFrame :=
  {| columns := raw_columns;
     rows := [mk_row 1 1 10 (days_ago 5) (Float (of_Z 0))] |}.

(** The same day as [demo_now], one hour later. *)
Definition demo_later : Z := (demo_now + 3600 * 1000000000)%Z.

(** ** Helper lemmas: series and frames *)

Lemma to_floats_Return (s : list cell) (xs : list float64) :
  to_floats s = Return xs ->
  xs = numf <$> s /\ Forall (fun c => numeric c = true) s.
Proof.
  revert xs. induction s as [|c s IH]; intros xs H; simpl in H.
  - injection H as <-. split; constructor.
  - destruct c as [x| | |]; simpl in H; try discriminate;
      (destruct (to_floats s) as [ys|e] eqn:E; simpl in H; try discriminate;
       injection H as <-; destruct (IH ys eq_refl) as [-> HF];
       split; [reflexivity|]; constructor; [reflexivity|assumption]).
Qed.

Lemma numeric_not_null (c : cell) :
  numeric c = true -> is_null c = false -> is_float c = true.
Proof. destruct c; simpl; congruence. Qed.

Lemma existsb_false_Forall {A} (f : A -> bool) (l : list A) :
  existsb f l = false <-> Forall (fun a => f a = false) l.
Proof.
  induction l as [|a l IH]; simpl.
  - split; [constructor|reflexivity].
  - rewrite orb_false_iff, IH, Forall_cons. reflexivity.
Qed.

Lemma getitem_Return (df : DataFrame) (c : string) (s : list cell) :
  getitem df c = Return s ->
  has_column df c = true /\ s = (fun r => at_ r c) <$> rows df.
Proof.
  unfold getitem. destruct (has_column df c); intros H; [|discriminate].
  injection H as <-. split; reflexivity.
Qed.

(** Reading a numeric column: [df[c]] followed by arithmetic on it. *)
Lemma read_Return (df : DataFrame) (c : string) (s : list cell) (xs : list float64) :
  getitem df c = Return s -> to_floats s = Return xs ->
  has_column df c = true /\ xs = num c <$> rows df /\
  Forall (fun r => numeric (at_ r c) = true) (rows df).
Proof.
  intros Hg Hf. apply getitem_Return in Hg as [Hc ->].
  apply to_floats_Return in Hf as [-> HF]. split; [assumption|]. split.
  - rewrite <- list_fmap_compose. reflexivity.
  - rewrite Forall_fmap in HF. exact HF.
Qed.

Lemma rows_setitem_fmap (df : DataFrame) (c : string) (h : gmap string cell -> float64) :
  rows (setitem df c (h <$> rows df)) = put c h <$> rows df.
Proof.
  unfold setitem; simpl. rewrite zip_with_fmap_r, zip_with_diag. reflexivity.
Qed.

Lemma has_column_setitem (df : DataFrame) (c c' : string) (s : list float64) :
  has_column (setitem df c s) c' = has_column df c' || bool_decide (c' = c).
Proof.
  unfold setitem; simpl; unfold has_column.
  apply eq_true_iff_eq. rewrite orb_true_iff, !bool_decide_eq_true.
  destruct (bool_decide (c ∈ columns df)) eqn:E.
  - simpl. apply bool_decide_eq_true in E. split; [tauto|].
    intros [H| ->]; assumption.
  - simpl. rewrite elem_of_app, list_elem_of_singleton. tauto.
Qed.

Lemma at_put_ne (c c' : string) h (r : gmap string cell) :
  c <> c' -> at_ (put c h r) c' = at_ r c'.
Proof. intros Hne. unfold at_, put. rewrite lookup_insert_ne by assumption. reflexivity. Qed.

Lemma at_put_eq (c : string) h (r : gmap string cell) :
  at_ (put c h r) c = Float (h r).
Proof. unfold at_, put. rewrite lookup_insert_eq. reflexivity. Qed.

Lemma num_put_ne (c c' : string) h (r : gmap string cell) :
  c <> c' -> num c' (put c h r) = num c' r.
Proof. intros Hne. unfold num. rewrite at_put_ne by assumption. reflexivity. Qed.

Lemma num_put_eq (c : string) h (r : gmap string cell) :
  num c (put c h r) = h r.
Proof. unfold num. rewrite at_put_eq. reflexivity. Qed.

Lemma fmap_num_put_ne (c c' : string) h (l : list (gmap string cell)) :
  c <> c' -> num c' <$> (put c h <$> l) = num c' <$> l.
Proof.
  intros Hne. rewrite <- list_fmap_compose. apply list_fmap_ext.
  intros i r _. simpl. apply num_put_ne. assumption.
Qed.

Lemma zip_with_fmap_both {A B C D} (f : A -> B -> C) (g : D -> A) (h : D -> B)
    (l : list D) :
  zip_with f (g <$> l) (h <$> l) = (fun x => f (g x) (h x)) <$> l.
Proof. rewrite zip_with_fmap_l, zip_with_fmap_r, zip_with_diag. reflexivity. Qed.

Lemma filter_fmap {A B} (P : B -> bool) (f : A -> B) (l : list A) :
  List.filter P (f <$> l) = f <$> List.filter (fun a => P (f a)) l.
Proof.
  induction l as [|a l IH]; [reflexivity|].
  change (f <$> a :: l) with (f a :: (f <$> l)). cbn [List.filter].
  rewrite IH. destruct (P (f a)); reflexivity.
Qed.

Lemma filter_all {A} (P : A -> bool) (l : list A) :
  Forall (fun a => P a = true) l -> List.filter P l = l.
Proof.
  induction 1 as [|a l Ha _ IH]; simpl; [reflexivity|].
  rewrite Ha, IH. reflexivity.
Qed.

Section PrepareFacts.
Context `{RT : Runtime}.

Lemma days_column_Return (now : Z) (out out' : DataFrame) :
  days_column now out = Return out' ->
  rows out' = days_row now (has_column out "last_order_date") <$> rows out /\
  (forall c, has_column out' c =
             has_column out c || bool_decide (c = "days_since_last_order")).
Proof.
  unfold days_column, days_row.
  destruct (has_column out "last_order_date") eqn:Hd.
  - destruct (getitem out "last_order_date") as [raw|e] eqn:Hraw; simpl; [|discriminate].
    apply getitem_Return in Hraw as [_ ->].
    destruct (datetime_failure _) as [e|]; simpl; [discriminate|].
    rewrite <- !list_fmap_compose.
    match goal with |- context [getitem ?d _] => set (out1 := d) end.
    destruct (getitem out1 "days_since_last_order") as [s|e] eqn:Hg; simpl; [|discriminate].
    destruct (to_floats s) as [d|e] eqn:Hf; simpl; [|discriminate].
    intros [= <-].
    destruct (read_Return _ _ _ _ Hg Hf) as (_ & -> & _).
    unfold clip, fillna. rewrite <- !list_fmap_compose.
    rewrite rows_setitem_fmap. subst out1. rewrite rows_setitem_fmap.
    rewrite <- list_fmap_compose. split; [reflexivity|].
    intros c. rewrite !has_column_setitem.
    destruct (has_column out c), (bool_decide (c = "days_since_last_order")); reflexivity.
  - intros [= <-]. unfold setitem_scalar. split.
    + unfold setitem; simpl. rewrite zip_with_replicate_r by lia. reflexivity.
    + intros c. apply has_column_setitem.
Qed.

(** A returning call found dates it could subtract. *)
Lemma days_column_dates (now : Z) (out out' : DataFrame) :
  days_column now out = Return out' ->
  has_column out "last_order_date" = true ->
  datetime_failure ((fun r => at_ r "last_order_date") <$> rows out) = None.
Proof.
  unfold days_column. intros H Hd. rewrite Hd in H.
  unfold getitem at 1 in H. rewrite Hd in H. cbn [obind] in H.
  destruct (datetime_failure _) as [e|]; [discriminate H|reflexivity].
Qed.

Ltac read_getitem :=
  lazymatch goal with
  | |- obind (getitem ?d ?c) _ = _ -> _ =>
      let Hg := fresh "Hg" in
      destruct (getitem d c) as [?s|?e] eqn:Hg;
      cbn beta iota delta [obind]; [|discriminate];
      apply getitem_Return in Hg as [Hg ->]
  end.

Ltac read_floats :=
  lazymatch goal with
  | |- obind (to_floats ?s) _ = _ -> _ =>
      let Hf := fresh "Hf" in
      destruct (to_floats s) as [?xs|?e] eqn:Hf;
      cbn beta iota delta [obind]; [|discriminate];
      apply to_floats_Return in Hf as [-> Hf]
  end.

(** Name the frame produced by the assignment [prev[c] = ...] and keep
    only what later steps need: its rows and its columns. *)
Ltac assigned prev c o R C :=
  cbv zeta; unfold cut;
  rewrite <- ?list_fmap_compose, ?zip_with_fmap_both;
  lazymatch goal with
  | |- context [setitem prev c (?h <$> rows prev)] =>
      set (o := setitem prev c (h <$> rows prev));
      assert (R : rows o = put c h <$> rows prev)
        by apply rows_setitem_fmap;
      assert (C : forall c', has_column o c' = has_column prev c' || bool_decide (c' = c))
        by (intros; apply has_column_setitem);
      clearbody o
  end.

Ltac read_ufunc H :=
  lazymatch goal with
  | |- obind (ufunc_operand ?s) _ = _ -> _ =>
      unfold ufunc_operand at 1;
      destruct (existsb is_null s) eqn:H;
      cbn beta iota delta [obind]; [discriminate|];
      apply existsb_false_Forall in H
  end.

Lemma derived_columns_Return (out out' : DataFrame) :
  derived_columns out = Return out' ->
  rows out' = derived_row (median (num "revenue_12m" <$> rows out)) <$> rows out /\
  (forall c, has_column out' c = has_column out c || bool_decide (c ∈ derived_names)) /\
  has_column out "revenue_12m" = true /\
  has_column out "order_count_12m" = true /\
  has_column out "days_since_last_order" = true /\
  Forall (fun r => is_float (at_ r "revenue_12m") = true /\
                   numeric (at_ r "order_count_12m") = true) (rows out).
Proof.
  unfold derived_columns.
  read_getitem. read_getitem. read_floats. read_floats.
  assigned out "avg_order_value" o1 R1 C1.
  read_getitem. read_ufunc Hnull. read_floats.
  assigned o1 "log_revenue" o2 R2 C2.
  read_getitem. read_floats.
  assigned o2 "order_count_sq" o3 R3 C3.
  read_getitem. read_floats.
  assigned o3 "recency_bucket" o4 R4 C4.
  read_getitem. read_floats.
  assert (E : (numf ∘ (fun r => at_ r "revenue_12m")) <$> rows o4
              = num "revenue_12m" <$> rows out).
  { change ((numf ∘ (fun r => at_ r "revenue_12m")) <$> rows o4)
      with (num "revenue_12m" <$> rows o4).
    rewrite R4, R3, R2, R1, !fmap_num_put_ne by discriminate. reflexivity. }
  assigned o4 "is_high_value" o5 R5 C5.
  rewrite E in R5.
  read_getitem. read_floats.
  assigned o5 "orders_per_month" o6 R6 C6.
  read_getitem. read_getitem. read_floats. read_floats.
  cbv zeta. rewrite <- ?list_fmap_compose, ?zip_with_fmap_both.
  intros [= <-]. split; [|split; [|split; [|split; [|split]]]].
  - rewrite rows_setitem_fmap, R6, R5, R4, R3, R2, R1.
    rewrite <- !list_fmap_compose. reflexivity.
  - intros c. rewrite has_column_setitem, C6, C5, C4, C3, C2, C1.
    unfold derived_names. apply eq_true_iff_eq.
    rewrite !orb_true_iff, !bool_decide_eq_true, !elem_of_cons, elem_of_nil.
    tauto.
  - assumption.
  - assumption.
  - rewrite C3, C2, C1 in Hg3. rewrite !orb_true_iff in Hg3.
    destruct Hg3 as [[[H|H]|H]|H]; [assumption| | |];
      apply bool_decide_eq_true in H; discriminate H.
  - rewrite Forall_fmap in Hf, Hf0, Hnull. rewrite R1, Forall_fmap in Hnull.
    rewrite Forall_forall in *.
    intros r Hr. split; [|apply Hf; assumption].
    apply numeric_not_null; [apply Hf0; assumption|].
    specialize (Hnull r Hr). simpl in Hnull.
    rewrite at_put_ne in Hnull by discriminate. exact Hnull.
Qed.

Lemma labelled_prepared_row now has_date med (r : gmap string cell) :
  labelled (prepared_row now has_date med r) = labelled r.
Proof.
  unfold labelled, prepared_row, derived_row, days_row.
  destruct has_date; rewrite !at_put_ne by discriminate; reflexivity.
Qed.

Lemma num_days_row now has_date c (r : gmap string cell) :
  c <> "days_since_last_order" -> num c (days_row now has_date r) = num c r.
Proof.
  intros Hc. unfold days_row.
  destruct has_date; rewrite !num_put_ne by congruence; reflexivity.
Qed.

Lemma prepare_features_empty `{SK : Sklearn} now (df : DataFrame) (w : World) :
  empty df = true -> prepare_features now df w = (Return df, w).
Proof. intros H. unfold prepare_features. rewrite H. reflexivity. Qed.

(** What a successful call on a non-empty table returns. *)
Lemma prepare_features_Return `{SK : Sklearn} now (df out : DataFrame) (w w' : World) :
  prepare_features now df w = (Return out, w') ->
  empty df = false ->
  rows out = prepared_row now (has_column df "last_order_date") (median (revenue df))
               <$> List.filter labelled (rows df) /\
  (forall c, has_column out c =
             has_column df c || bool_decide (c = "days_since_last_order")
             || bool_decide (c ∈ derived_names)) /\
  has_column df "revenue_12m" = true /\
  has_column df "order_count_12m" = true /\
  has_column df "is_churned" = true /\
  Forall (fun r => is_float (at_ r "revenue_12m") = true /\
                   numeric (at_ r "order_count_12m") = true) (rows df) /\
  self w' = set_feature_names feature_cols (self w) /\
  console w' = console w.
Proof.
  intros H He. unfold prepare_features in H. rewrite He in H.
  unfold bind, lift, modify in H.
  destruct (days_column now df) as [o1|e] eqn:E1; [|discriminate].
  destruct (derived_columns o1) as [o2|e] eqn:E2; [|discriminate].
  apply days_column_Return in E1 as [R1 C1].
  apply derived_columns_Return in E2 as (R2 & C2 & Hrev & Hcnt & _ & Hnum).
  assert (Hav : List.filter (has_column o2) feature_cols = feature_cols).
  { apply filter_all. unfold feature_cols.
    rewrite C1 in Hrev, Hcnt. rewrite orb_false_r in Hrev, Hcnt.
    repeat (apply Forall_cons_2;
            [rewrite C2, C1, ?Hrev, ?Hcnt; try reflexivity;
             match goal with |- ?b || _ || _ = true => destruct b end;
             reflexivity|]).
    apply Forall_nil_2. }
  rewrite Hav in H. unfold dropna in H.
  destruct (has_column o2 "is_churned") eqn:Hlab; [|discriminate].
  injection H as <- <-. cbn [rows columns self console].
  assert (Hmed : num "revenue_12m" <$> rows o1 = revenue df).
  { rewrite R1, <- list_fmap_compose. apply list_fmap_ext.
    intros i r _. apply num_days_row. discriminate. }
  rewrite Hmed in R2.
  rewrite C1 in Hrev, Hcnt. rewrite C2, C1 in Hlab.
  rewrite orb_false_r in Hrev, Hcnt.
  replace (bool_decide ("is_churned" ∈ derived_names)) with false in Hlab
    by (symmetry; apply bool_decide_eq_false; unfold derived_names;
        rewrite !elem_of_cons, elem_of_nil; intros H;
        repeat destruct H as [H|H]; try discriminate H; exact H).
  rewrite !orb_false_r in Hlab.
  split; [|split; [|split; [|split; [|split; [|split; [|split]]]]]];
    try assumption; try reflexivity.
  - rewrite R2, R1, <- list_fmap_compose, filter_fmap.
    f_equal. apply List.filter_ext. intros r.
    apply (labelled_prepared_row now (has_column df "last_order_date")).
  - intros c. unfold has_column at 1; cbn [columns].
    fold (has_column o2 c). rewrite C2, C1. reflexivity.
  - rewrite R1, Forall_fmap in Hnum. rewrite Forall_forall in *.
    intros r Hr. specialize (Hnum r Hr). simpl in Hnum.
    unfold days_row in Hnum.
    destruct (has_column df "last_order_date");
      rewrite !at_put_ne in Hnum by discriminate; exact Hnum.
Qed.

End PrepareFacts.

(** ** Comparisons on whole numbers *)

Lemma fle_of_Z (a b : Z) : fle (of_Z a) (of_Z b) = (a <=? b)%Z.
Proof.
  unfold fle, of_Z, Qle_bool; simpl. rewrite !Z.mul_1_r. reflexivity.
Qed.

Lemma flt_of_Z (a b : Z) : flt (of_Z a) (of_Z b) = (a <? b)%Z.
Proof.
  unfold flt. rewrite !fle_of_Z.
  destruct (Z.leb_spec a b), (Z.leb_spec b a), (Z.ltb_spec a b); simpl; try reflexivity; lia.
Qed.

Lemma clip1_of_Z (d : Z) :
  clip1 (of_Z 0) (of_Z 999) (of_Z d) = of_Z (Z.max 0 (Z.min 999 d)).
Proof.
  unfold clip1. change (match of_Z d with NaN => NaN | _ =>
    if flt (of_Z d) (of_Z 0) then of_Z 0
    else if flt (of_Z 999) (of_Z d) then of_Z 999 else of_Z d end)
    with (if flt (of_Z d) (of_Z 0) then of_Z 0
          else if flt (of_Z 999) (of_Z d) then of_Z 999 else of_Z d).
  rewrite !flt_of_Z.
  destruct (Z.ltb_spec d 0), (Z.ltb_spec 999 d); f_equal; lia.
Qed.

Lemma cut1_of_Z (d : Z) :
  (0 <= d <= 999)%Z ->
  cut1 [-1; 30; 60; 90; 999]%Q [1; 2; 3; 4]%Q (of_Z d) = of_Z (bucket d).
Proof.
  intros Hd. unfold cut1, bucket.
  change (Fin (-1)) with (of_Z (-1)). change (Fin 30) with (of_Z 30).
  change (Fin 60) with (of_Z 60). change (Fin 90) with (of_Z 90).
  change (Fin 999) with (of_Z 999).
  rewrite !flt_of_Z, !fle_of_Z.
  destruct (Z.leb_spec d 30), (Z.leb_spec d 60), (Z.leb_spec d 90),
    (Z.leb_spec d 999), (Z.ltb_spec (-1) d), (Z.ltb_spec 30 d),
    (Z.ltb_spec 60 d), (Z.ltb_spec 90 d); simpl; try reflexivity; lia.
Qed.

Section PreparedRows.
Context `{RT : Runtime} `{SK : Sklearn}.

(** Every row of the prepared table is the row-wise image of a labelled
    input row with numeric revenue and order count. *)
Lemma prepared_row_origin now (df out : DataFrame) (w w' : World)
    (r : gmap string cell) :
  prepare_features now df w = (Return out, w') ->
  empty df = false ->
  r ∈ rows out ->
  exists r0,
    r0 ∈ rows df /\ labelled r0 = true /\
    r = prepared_row now (has_column df "last_order_date") (median (revenue df)) r0.
Proof.
  intros H He Hr.
  destruct (prepare_features_Return _ _ _ _ _ H He) as (R & _).
  rewrite R in Hr. apply list_elem_of_fmap in Hr as (r0 & -> & Hr0).
  apply list_elem_of_In, List.filter_In in Hr0 as [Hin Hl].
  exists r0. split; [apply list_elem_of_In; assumption|]. split; [assumption|reflexivity].
Qed.

Lemma days_of_prepared_row now has_date med (r0 : gmap string cell) :
  at_ (prepared_row now has_date med r0) "days_since_last_order" =
  Float (if has_date
         then clip1 (of_Z 0) (of_Z 999)
                (fillna1 (of_Z 999)
                   (dt_days (normalize now) (to_datetime (at_ r0 "last_order_date"))))
         else of_Z 999).
Proof.
  unfold prepared_row, derived_row. rewrite !at_put_ne by discriminate.
  unfold days_row. destruct has_date.
  - rewrite at_put_eq, num_put_eq. reflexivity.
  - rewrite at_put_eq. reflexivity.
Qed.

Lemma raw_of_prepared_row now has_date med c (r0 : gmap string cell) :
  c <> "days_since_last_order" -> c ∉ derived_names ->
  at_ (prepared_row now has_date med r0) c = at_ r0 c.
Proof.
  intros Hd Hn. unfold derived_names in Hn.
  rewrite !not_elem_of_cons in Hn. destruct Hn as (?&?&?&?&?&?&?&_).
  unfold prepared_row, derived_row. rewrite !at_put_ne by congruence.
  unfold days_row. destruct has_date; rewrite !at_put_ne by congruence; reflexivity.
Qed.

Lemma avg_of_prepared_row now has_date med (r0 : gmap string cell) :
  let r := prepared_row now has_date med r0 in
  at_ r "avg_order_value" =
  Float (fdiv (num "revenue_12m" r) (fadd (num "order_count_12m" r) (of_Z 1))).
Proof.
  unfold prepared_row, derived_row; cbv zeta.
  rewrite !at_put_ne by discriminate. rewrite at_put_eq.
  rewrite !num_put_ne by discriminate. reflexivity.
Qed.

Lemma rpo_of_prepared_row now has_date med (r0 : gmap string cell) :
  let r := prepared_row now has_date med r0 in
  at_ r "revenue_per_order" =
  Float (fdiv (num "revenue_12m" r) (fadd (num "order_count_12m" r) (of_Z 1))).
Proof.
  unfold prepared_row, derived_row; cbv zeta.
  rewrite at_put_eq. rewrite !num_put_ne by discriminate. reflexivity.
Qed.

Lemma bucket_of_prepared_row now has_date med (r0 : gmap string cell) :
  let r := prepared_row now has_date med r0 in
  at_ r "recency_bucket" =
  Float (cut1 [-1; 30; 60; 90; 999]%Q [1; 2; 3; 4]%Q (num "days_since_last_order" r)).
Proof.
  unfold prepared_row, derived_row; cbv zeta.
  rewrite !at_put_ne by discriminate. rewrite at_put_eq.
  rewrite !num_put_ne by discriminate. reflexivity.
Qed.

Lemma high_value_of_prepared_row now has_date med (r0 : gmap string cell) :
  let r := prepared_row now has_date med r0 in
  at_ r "is_high_value" = Float (of_bool (fge (num "revenue_12m" r) med)).
Proof.
  unfold prepared_row, derived_row; cbv zeta.
  rewrite !at_put_ne by discriminate. rewrite at_put_eq.
  rewrite !num_put_ne by discriminate. reflexivity.
Qed.

(** The recency of a prepared row is a whole number of days in [0, 999]. *)
Lemma days_value now has_date med (r0 : gmap string cell) :
  let r := prepared_row now has_date med r0 in
  exists d : Z,
    at_ r "days_since_last_order" = Float (of_Z d) /\ (0 <= d <= 999)%Z /\
    d = (if has_date
         then match to_datetime (at_ r "last_order_date") with
              | Some t => Z.max 0 (Z.min 999 ((normalize now - t) `div` day_ns))
              | None => 999
              end
         else 999)%Z.
Proof.
  cbv zeta. rewrite days_of_prepared_row.
  rewrite raw_of_prepared_row
    by (try discriminate; unfold derived_names;
        rewrite !not_elem_of_cons; repeat split; try discriminate; apply not_elem_of_nil).
  destruct has_date.
  - destruct (to_datetime (at_ r0 "last_order_date")) as [t|].
    + change (fillna1 (of_Z 999) (dt_days (normalize now) (Some t)))
        with (of_Z ((normalize now - t) `div` day_ns)).
      rewrite clip1_of_Z. eexists; split; [reflexivity|]. split; [lia|reflexivity].
    + exists 999%Z. split; [reflexivity|]. split; [lia|reflexivity].
  - exists 999%Z. split; [reflexivity|]. split; [lia|reflexivity].
Qed.

End PreparedRows.

(** ** Feature preparation: the derived columns *)

Lemma bucket_range (d : Z) : (1 <= bucket d <= 4)%Z.
Proof.
  unfold bucket.
  destruct (d <=? 30)%Z, (d <=? 60)%Z, (d <=? 90)%Z; lia.
Qed.

Lemma bucket_intervals (d : Z) :
  (bucket d = 1 <-> d <= 30)%Z /\
  (bucket d = 2 <-> 30 < d <= 60)%Z /\
  (bucket d = 3 <-> 60 < d <= 90)%Z /\
  (bucket d = 4 <-> 90 < d)%Z.
Proof.
  unfold bucket.
  destruct (Z.leb_spec d 30), (Z.leb_spec d 60), (Z.leb_spec d 90); lia.
Qed.

Section FeatureBuilder.
Context `{RT : Runtime} `{SK : Sklearn}.

(** C2. Feature preparation depends on the clock only through the day it
    shows: two calls on the same table whose clock readings normalise to the
    same reference date return the same table, whatever state the object is
    in, and leave an equal object behind when they start from the same one. *)
Theorem prepare_features_deterministic (now1 now2 : Z) (df : DataFrame)
    (w1 w2 : World) :
  normalize now1 = normalize now2 ->
  fst (prepare_features now1 df w1) = fst (prepare_features now2 df w2) /\
  (w1 = w2 -> prepare_features now1 df w1 = prepare_features now2 df w2).
Proof.
  intros Hday.
  assert (Hd : days_column now1 df = days_column now2 df).
  { unfold days_column. rewrite Hday. reflexivity. }
  unfold prepare_features. destruct (empty df).
  - split; [reflexivity|]. intros ->. reflexivity.
  - unfold bind, lift, modify. rewrite Hd.
    destruct (days_column now2 df) as [o1|e]; [|split; [reflexivity|intros ->; reflexivity]].
    destruct (derived_columns o1) as [o2|e]; [|split; [reflexivity|intros ->; reflexivity]].
    split; [reflexivity|]. intros ->. reflexivity.
Qed.



(** C8. In every row of the prepared table, [recency_bucket] is the label
    1, 2, 3 or 4 of the interval (-1,30], (30,60], (60,90], (90,999] that
    holds [days_since_last_order]; 0 days falls in bucket 1 and more than 90
    days in bucket 4. *)
Theorem recency_bucket_bins now (df out : DataFrame) (w w' : World)
    (r : gmap string cell) :
  prepare_features now df w = (Return out, w') ->
  empty df = false ->
  r ∈ rows out ->
  exists d : Z,
    at_ r "days_since_last_order" = Float (of_Z d) /\
    (0 <= d <= 999)%Z /\
    at_ r "recency_bucket" =
      Float (cut1 [-1; 30; 60; 90; 999]%Q [1; 2; 3; 4]%Q (of_Z d)) /\
    at_ r "recency_bucket" = Float (of_Z (bucket d)) /\
    (1 <= bucket d <= 4)%Z /\
    (bucket d = 1 <-> -1 < d <= 30)%Z /\
    (bucket d = 2 <-> 30 < d <= 60)%Z /\
    (bucket d = 3 <-> 60 < d <= 90)%Z /\
    (bucket d = 4 <-> 90 < d <= 999)%Z /\
    (d = 0 -> bucket d = 1)%Z /\
    (90 < d -> bucket d = 4)%Z.
Proof.
  intros H He Hr.
  destruct (prepared_row_origin _ _ _ _ _ _ H He Hr) as (r0 & _ & _ & ->).
  destruct (days_value now (has_column df "last_order_date")
              (median (revenue df)) r0) as (d & Hd & Hrange & _).
  pose proof (bucket_of_prepared_row now (has_column df "last_order_date")
                (median (revenue df)) r0) as Hb.
  cbv zeta in Hb. unfold num in Hb. rewrite Hd in Hb. simpl numf in Hb.
  pose proof (bucket_range d) as Hbr.
  destruct (bucket_intervals d) as (I1 & I2 & I3 & I4).
  exists d. split; [exact Hd|]. split; [exact Hrange|]. split; [exact Hb|].
  split; [rewrite Hb, cut1_of_Z by exact Hrange; reflexivity|].
  split; [exact Hbr|].
  repeat split; try lia.
Qed.

(** C6. In every row of the prepared table, [is_high_value] is 1 exactly
    when the row's revenue_12m is at least the median revenue_12m of the
    input batch, and 0 otherwise; for the revenues 10, 20, 30, 40, 50 the
    median is 30 and the flags are 0, 0, 1, 1, 1. *)
Theorem is_high_value_at_median now (df out : DataFrame) (w w' : World) :
  prepare_features now df w = (Return out, w') ->
  empty df = false ->
  (forall r, r ∈ rows out ->
     at_ r "is_high_value" =
       Float (of_bool (fge (num "revenue_12m" r) (median (revenue df)))) /\
     (at_ r "is_high_value" = Float (of_Z 1) <->
      fge (num "revenue_12m" r) (median (revenue df)) = true) /\
     (at_ r "is_high_value" = Float (of_Z 0) <->
      fge (num "revenue_12m" r) (median (revenue df)) = false)) /\
  (revenue df = of_Z <$> [10; 20; 30; 40; 50]%Z ->
   Forall (fun r0 => labelled r0 = true) (rows df) ->
   median (revenue df) = of_Z 30 /\
   num "is_high_value" <$> rows out = of_Z <$> [0; 0; 1; 1; 1]%Z).
Proof.
  intros H He. split.
  - intros r Hr.
    destruct (prepared_row_origin _ _ _ _ _ _ H He Hr) as (r0 & _ & _ & ->).
    pose proof (high_value_of_prepared_row now (has_column df "last_order_date")
                  (median (revenue df)) r0) as Hv.
    cbv zeta in Hv. split; [exact Hv|]. rewrite Hv.
    destruct (fge _ _); simpl; split; split; intros E;
      try reflexivity; try discriminate E.
  - intros Hrev Hlab.
    destruct (prepare_features_Return _ _ _ _ _ H He) as (R & _).
    rewrite filter_all in R by exact Hlab.
    assert (Hcol : num "is_high_value" <$> rows out
                   = (fun x => of_bool (fge x (median (revenue df)))) <$> revenue df).
    { rewrite R. unfold revenue. rewrite <- !list_fmap_compose.
      apply list_fmap_ext. intros i r0 _. unfold compose.
      pose proof (high_value_of_prepared_row now (has_column df "last_order_date")
                    (median (revenue df)) r0) as Hv.
      cbv zeta in Hv. unfold revenue in Hv.
      unfold num at 1. rewrite Hv. cbn [numf]. f_equal. f_equal.
      unfold prepared_row, derived_row.
      rewrite !num_put_ne by discriminate. apply num_days_row. discriminate. }
    rewrite Hcol, Hrev. split; reflexivity.
Qed.

(** C10. The threshold of [is_high_value] is the median revenue over every
    row of the input, labelled or not; rows without a label are dropped only
    afterwards, so they still move the threshold applied to the rows that
    stay.  In the batch with revenues 10, 20 (labelled) and 1000, 2000
    (unlabelled) both surviving rows get 0, where the median of the
    surviving rows alone would give the second one 1. *)
Theorem median_counts_unlabelled_rows now (w w' : World) :
  (forall (df out : DataFrame),
      prepare_features now df w = (Return out, w') ->
      empty df = false ->
      rows out = prepared_row now (has_column df "last_order_date")
                   (median (num "revenue_12m" <$> rows df))
                   <$> List.filter labelled (rows df) /\
      forall r, r ∈ rows out ->
        at_ r "is_high_value" =
          Float (of_bool (fge (num "revenue_12m" r)
                            (median (num "revenue_12m" <$> rows df))))) /\
  (forall out : DataFrame,
      prepare_features now batch_unlabelled w = (Return out, w') ->
      (exists m, median (num "revenue_12m" <$> rows batch_unlabelled) = Fin m /\
                 (m == 510)%Q) /\
      num "revenue_12m" <$> rows out = of_Z <$> [10; 20]%Z /\
      num "is_high_value" <$> rows out = of_Z <$> [0; 0]%Z /\
      (fun r => of_bool (fge (num "revenue_12m" r)
                           (median (num "revenue_12m" <$> rows out))))
        <$> rows out = of_Z <$> [0; 1]%Z).
Proof.
  split.
  - intros df out H He.
    destruct (prepare_features_Return _ _ _ _ _ H He) as (R & _).
    split; [exact R|]. intros r Hr.
    destruct (prepared_row_origin _ _ _ _ _ _ H He Hr) as (r0 & _ & _ & ->).
    apply (high_value_of_prepared_row now (has_column df "last_order_date")
             (median (revenue df)) r0).
  - intros out H.
    destruct (prepare_features_Return _ _ _ _ _ H eq_refl) as (R & _).
    split; [eexists; split; reflexivity|]. rewrite R. repeat split; reflexivity.
Qed.

End FeatureBuilder.

(** ** The state monad *)

Section MonadFacts.
Context `{SK : Sklearn}.

Lemma bind_Return {A B} (m : M A) (k : A -> M B) (w w' : World) (b : B) :
  bind m k w = (Return b, w') ->
  exists a w1, m w = (Return a, w1) /\ k a w1 = (Return b, w').
Proof.
  unfold bind. destruct (m w) as [[a|e] w1]; intros H; [|discriminate].
  exists a, w1. split; [reflexivity|exact H].
Qed.

Lemma bind_step {A B} (m : M A) (k : A -> M B) (w w1 : World) (a : A) :
  m w = (Return a, w1) -> bind m k w = k a w1.
Proof. intros H. unfold bind. rewrite H. reflexivity. Qed.

Lemma bind_Raise {A B} (m : M A) (k : A -> M B) (w w1 : World) (e : exn) :
  m w = (Raise e, w1) -> bind m k w = (Raise e, w1).
Proof. intros H. unfold bind. rewrite H. reflexivity. Qed.

Lemma lift_Return {A} (o : outcome A) (w w' : World) (a : A) :
  lift o w = (Return a, w') -> o = Return a /\ w' = w.
Proof. unfold lift. intros [= -> ->]. split; reflexivity. Qed.

Lemma print_Return (s : string) (w w' : World) (u : unit) :
  print s w = (Return u, w') ->
  self w' = self w /\ console w' = console w ++ [s].
Proof. unfold print. intros [= _ <-]. split; reflexivity. Qed.

End MonadFacts.

Ltac inv_bind H :=
  let a := fresh "a" in
  let w1 := fresh "w" in
  let H1 := fresh "Hrun" in
  apply bind_Return in H as (a & w1 & H1 & H).

Ltac inv_lift H :=
  let E := fresh "E" in
  apply lift_Return in H as [E ->].

(** ** Evaluation leaves the object alone *)

Section Evaluation.
Context `{SK : Sklearn}.

Lemma keeps_self_ret {A} (a : A) : keeps_self (ret a).
Proof. intros w. reflexivity. Qed.

Lemma keeps_self_lift {A} (o : outcome A) : keeps_self (lift o).
Proof. intros w. reflexivity. Qed.

Lemma keeps_self_print (s : string) : keeps_self (print s).
Proof. intros w. reflexivity. Qed.

Lemma keeps_self_get_self : keeps_self get_self.
Proof. intros w. reflexivity. Qed.

Lemma keeps_self_bind {A B} (m : M A) (k : A -> M B) :
  keeps_self m -> (forall a, keeps_self (k a)) -> keeps_self (bind m k).
Proof.
  intros Hm Hk w. unfold bind. specialize (Hm w).
  destruct (m w) as [[a|e] w1]; simpl in *.
  - rewrite Hk. exact Hm.
  - exact Hm.
Qed.

Lemma keeps_self_plot_feature_importance : keeps_self plot_feature_importance.
Proof.
  unfold plot_feature_importance. apply keeps_self_bind; [apply keeps_self_get_self|].
  intros s. destruct (_trained s), (model s);
    first [apply keeps_self_print | apply keeps_self_lift].
Qed.

Lemma keeps_self_evaluate (X_test : list (list cell)) (y_test : list cell) :
  keeps_self (evaluate X_test y_test).
Proof.
  unfold evaluate, plot_confusion_matrix, plot_roc_curve, save_model_results.
  repeat first
    [ apply keeps_self_plot_feature_importance
    | apply keeps_self_get_self
    | apply keeps_self_lift
    | apply keeps_self_print
    | apply keeps_self_ret
    | apply keeps_self_bind
    | intros ? ].
Qed.

(** What a returning evaluation has computed on the way. *)
Lemma evaluate_Return (X_test : list (list cell)) (y_test : list cell)
    (w w' : World) (res : gmap string metric) :
  evaluate X_test y_test w = (Return res, w') ->
  exists p clf X_test_scaled y_pred proba y_pred_proba cm acc roc_auc report,
    scaler (self w) = Some p /\
    model (self w) = Fitted clf /\
    StandardScaler_transform p X_test = Return X_test_scaled /\
    predict clf X_test_scaled = Return y_pred /\
    predict_proba clf X_test_scaled = Return proba /\
    column1 proba = Return y_pred_proba /\
    confusion_matrix y_test y_pred = Return cm /\
    accuracy_score y_test y_pred = Return acc /\
    roc_auc_or_zero y_test y_pred_proba = Return roc_auc /\
    classification_report y_test y_pred ["Not churned"; "Churned"] = Return report /\
    res = <["confusion_matrix" := Counts cm]>
            (<["classification_report" := Text report]>
               (<["roc_auc" := Score roc_auc]>
                  (<["accuracy" := Score acc]> ∅))).
Proof.
  intros H. unfold evaluate in H.
  inv_bind H. unfold get_self in Hrun. injection Hrun as <- <-.
  inv_bind H. inv_lift Hrun.
  inv_bind H. inv_lift Hrun.
  inv_bind H. inv_lift Hrun.
  inv_bind H. inv_lift Hrun.
  inv_bind H. inv_lift Hrun.
  inv_bind H. inv_lift Hrun.
  inv_bind H. inv_lift Hrun.
  inv_bind H. inv_lift Hrun.
  inv_bind H. inv_lift Hrun.
  inv_bind H. inv_bind H. inv_bind H. inv_bind H.
  unfold ret in H. injection H as <- _.
  destruct (scaler (self w)) as [p|] eqn:Hs; [|discriminate].
  destruct (model (self w)) as [| |clf] eqn:Hm; try discriminate.
  match goal with E : Return clf = Return _ |- _ => injection E as <- end.
  eexists p, clf, _, _, _, _, _, _, _, _.
  repeat split; try eassumption; reflexivity.
Qed.

End Evaluation.

(** ** Training *)

Section Training.
Context `{RT : Runtime} `{SK : Sklearn}.

(** What a returning [train_model] has fitted and stored. *)
Lemma train_model_Return (cols : list string) (X : list (list cell))
    (y : list cell) (w w' : World) (clf : classifier) :
  train_model cols X y w = (Return clf, w') ->
  exists p X_scaled,
    StandardScaler_fit X = Return p /\
    StandardScaler_transform p X = Return X_scaled /\
    LogisticRegression_fit X_scaled y = Return clf /\
    self w' = {| output_dir := output_dir (self w); scaler := Some p;
                 model := Fitted clf; feature_names_ := cols;
                 _trained := true |} /\
    console w' = console w.
Proof.
  unfold train_model, bind, lift, modify, ret. simpl.
  destruct (StandardScaler_fit X) as [p|e] eqn:E1; [|discriminate].
  destruct (StandardScaler_transform p X) as [Xs|e] eqn:E2; [|discriminate].
  destruct (LogisticRegression_fit Xs y) as [c|e] eqn:E3; [|discriminate].
  intros [= <- <-]. exists p, Xs. repeat split; assumption.
Qed.

(** The scaler after [train_model], whether or not the call returns. *)
Lemma train_model_scaler (cols : list string) (X : list (list cell))
    (y : list cell) (w : World) :
  scaler (self (snd (train_model cols X y w))) =
  match StandardScaler_fit X with
  | Return p => Some p
  | Raise _ => scaler (self w)
  end.
Proof.
  unfold train_model, bind, lift, modify, ret. simpl.
  destruct (StandardScaler_fit X) as [p|e]; [|reflexivity].
  destruct (StandardScaler_transform p X) as [Xs|e]; [|reflexivity].
  destruct (LogisticRegression_fit Xs y) as [c|e]; reflexivity.
Qed.

(** The two ways [train_and_evaluate] returns: the early exit with an empty
    result, or a full run through split, fit and evaluation. *)
Lemma train_and_evaluate_Return now (df : DataFrame) (w w' : World)
    (res : gmap string metric) :
  train_and_evaluate now df w = (Return res, w') ->
  exists prepared w1,
    prepare_features now df w = (Return prepared, w1) /\
    ((res = ∅ /\ self w' = self w1 /\
      exists msg, console w' = console w1 ++ [msg]) \/
     (empty prepared = false /\
      exists cols X y X_train X_test y_train y_test clf w2,
        select_fillna prepared cols (of_Z 0) = Return X /\
        getitem prepared "is_churned" = Return y /\
        train_test_split X y = Return (X_train, X_test, y_train, y_test) /\
        train_model cols X_train y_train w1 = (Return clf, w2) /\
        evaluate X_test y_test w2 = (Return res, w'))).
Proof.
  intros H. unfold train_and_evaluate in H.
  inv_bind H. rename a into prepared, w0 into w1.
  exists prepared, w1. split; [exact Hrun|].
  destruct (empty prepared || negb (has_column prepared "is_churned")) eqn:G.
  - left. inv_bind H. apply print_Return in Hrun0 as [Hs Hc].
    unfold ret in H. injection H as <- <-.
    split; [reflexivity|]. split; [exact Hs|]. eexists. exact Hc.
  - apply orb_false_iff in G as [Ge _].
    inv_bind H. unfold get_self in Hrun0. injection Hrun0 as <- <-.
    match type of H with
    | (if is_nil ?c then _ else _) _ = _ => destruct (is_nil c) eqn:Gc; set (cols := c) in *
    end.
    + left. inv_bind H. apply print_Return in Hrun0 as [Hs Hc].
      unfold ret in H. injection H as <- <-.
      split; [reflexivity|]. split; [exact Hs|]. eexists. exact Hc.
    + right. split; [exact Ge|].
      inv_bind H. inv_lift Hrun0. inv_bind H. inv_lift Hrun0.
      inv_bind H. inv_lift Hrun0.
      destruct a1 as [[[X_train X_test] y_train] y_test].
      inv_bind H.
      eexists cols, _, _, X_train, X_test, y_train, y_test, _, _.
      repeat split; eassumption.
Qed.

End Training.

Lemma to_floats_Float (xs : list float64) : to_floats (Float <$> xs) = Return xs.
Proof.
  induction xs as [|x xs IH]; [reflexivity|].
  change (Float <$> x :: xs) with (Float x :: (Float <$> xs)).
  cbn [to_floats as_float obind]. rewrite IH. reflexivity.
Qed.

Lemma no_nan_fillna_cell (c : cell) : isna (fillna_cell (of_Z 0) c) = false.
Proof. destruct c as [[| |]| | |]; reflexivity. Qed.

Lemma fillna_cell_spec (c : cell) :
  fillna_cell (of_Z 0) c = if isna c then Float (of_Z 0) else c.
Proof. destruct c as [[| |]| | |]; reflexivity. Qed.

Lemma select_fillna_Return (prepared : DataFrame) (cols : list string)
    (X : list (list cell)) :
  select_fillna prepared cols (of_Z 0) = Return X ->
  X = (fun r => (fun c => if isna (at_ r c) then Float (of_Z 0) else at_ r c) <$> cols)
        <$> rows prepared /\
  Forall (Forall (fun c => isna c = false)) X.
Proof.
  unfold select_fillna. destruct (check_columns prepared cols); [|discriminate].
  cbn [obind]. intros [= <-]. split.
  - apply list_fmap_ext. intros i r _. apply list_fmap_ext. intros j c _.
    apply fillna_cell_spec.
  - apply Forall_fmap, Forall_true. intros r.
    apply Forall_fmap, Forall_true. intros c. apply no_nan_fillna_cell.
Qed.

Section PipelineFacts.
Context `{RT : Runtime} `{SK : Sklearn}.

(** Lines 63-69 raise only when the dates cannot be subtracted. *)
Lemma days_column_total now (df : DataFrame) :
  (has_column df "last_order_date" = true ->
   datetime_failure ((fun r => at_ r "last_order_date") <$> rows df) = None) ->
  exists o, days_column now df = Return o /\
            forall c, has_column o c =
                      has_column df c || bool_decide (c = "days_since_last_order").
Proof.
  intros Hdates.
  assert (Hex : exists o, days_column now df = Return o).
  { unfold days_column. destruct (has_column df "last_order_date") eqn:Hd.
    - unfold getitem at 1. rewrite Hd. cbn [obind].
      rewrite (Hdates eq_refl). cbn [raise_if obind].
      rewrite <- !list_fmap_compose.
      unfold getitem. rewrite has_column_setitem, orb_true_r.
      rewrite rows_setitem_fmap, <- list_fmap_compose. cbn [obind].
      match goal with
      | |- context [to_floats (?f <$> ?l)] =>
          replace (f <$> l)
            with (Float <$> ((fun r =>
                    dt_days (normalize now) (to_datetime (at_ r "last_order_date"))) <$> l))
      end.
      + rewrite to_floats_Float. cbn [obind]. eexists. reflexivity.
      + rewrite <- list_fmap_compose. apply list_fmap_ext. intros i r _.
        unfold compose. rewrite at_put_eq. reflexivity.
    - eexists. reflexivity. }
  destruct Hex as [o Ho]. exists o. split; [exact Ho|].
  apply days_column_Return in Ho as [_ C]. exact C.
Qed.


End PipelineFacts.

(** ** Training and evaluation: the claims *)

Section Pipeline.
Context `{RT : Runtime} `{SK : Sklearn}.

(** C1, as the code has it.  When nothing is left after feature
    preparation, [train_and_evaluate] does not raise: it prints a notice and
    returns the empty result, and the scaler, the model and the trained flag
    are what they were before the call.  When preparation returns a
    non-empty table, all nine feature columns and the label are in it, so
    the second guard never fires. *)
Theorem empty_prepared_table_returns_empty_result :
  (forall now (df prepared : DataFrame) (w w1 : World),
      prepare_features now df w = (Return prepared, w1) ->
      empty prepared = true ->
      train_and_evaluate now df w =
        (Return ∅,
         {| self := self w1;
            console := console w1 ++
              ["train_and_evaluate: no valid data after prepare_features"] |}) /\
      scaler (self w1) = scaler (self w) /\
      model (self w1) = model (self w) /\
      _trained (self w1) = _trained (self w)) /\
  (forall now (df prepared : DataFrame) (w w1 : World),
      prepare_features now df w = (Return prepared, w1) ->
      empty prepared = false ->
      Forall (fun c => has_column prepared c = true) feature_cols /\
      has_column prepared "is_churned" = true).
Proof.
  split.
  - intros now df prepared w w1 H He. split.
    + unfold train_and_evaluate. rewrite (bind_step _ _ _ _ _ H).
      rewrite He. reflexivity.
    + destruct (empty df) eqn:Hd.
      * rewrite prepare_features_empty in H by exact Hd.
        injection H as _ <-. repeat split; reflexivity.
      * destruct (prepare_features_Return _ _ _ _ _ H Hd)
          as (_ & _ & _ & _ & _ & _ & Hs & _).
        rewrite Hs. repeat split; reflexivity.
  - intros now df prepared w w1 H He.
    destruct (empty df) eqn:Hd.
    + rewrite prepare_features_empty in H by exact Hd.
      injection H as <- _. congruence.
    + destruct (prepare_features_Return _ _ _ _ _ H Hd)
        as (_ & C & Hrev & Hcnt & Hlab & _).
      split.
      * unfold feature_cols.
        repeat (apply Forall_cons_2;
                [rewrite C, ?Hrev, ?Hcnt; try reflexivity;
                 match goal with |- ?b || _ || _ = true => destruct b end;
                 reflexivity|]).
        apply Forall_nil_2.
      * rewrite C, Hlab. reflexivity.
Qed.

(** C4. With a single class among the test labels the ROC-AUC step of line
    253 yields exactly 0.0 and never raises, whatever [roc_auc_score] would
    do; with both classes it is [roc_auc_score] on the positive-class
    probabilities, and a returning evaluation reports that value under
    "roc_auc".  The guard stops there: when [classification_report] on line
    254 rejects the same labels, the evaluation raises its exception after
    the 0.0 was computed, so nothing is reported, plotted or printed. *)
Theorem roc_auc_zero_then_report_raises :
  (forall (y_test : list cell) (y_pred_proba : list float64),
      (length (np_unique y_test) <= 1)%nat ->
      roc_auc_or_zero y_test y_pred_proba = Return (Fin 0)) /\
  (forall (y_test : list cell) (y_pred_proba : list float64),
      (1 < length (np_unique y_test))%nat ->
      roc_auc_or_zero y_test y_pred_proba = roc_auc_score y_test y_pred_proba) /\
  (forall (X_test : list (list cell)) (y_test : list cell) (w w' : World)
          (res : gmap string metric),
      evaluate X_test y_test w = (Return res, w') ->
      ((length (np_unique y_test) <= 1)%nat ->
       res !! "roc_auc" = Some (Score (Fin 0))) /\
      ((1 < length (np_unique y_test))%nat ->
       exists p clf X_test_scaled proba y_pred_proba a,
         scaler (self w) = Some p /\ model (self w) = Fitted clf /\
         StandardScaler_transform p X_test = Return X_test_scaled /\
         predict_proba clf X_test_scaled = Return proba /\
         column1 proba = Return y_pred_proba /\
         roc_auc_score y_test y_pred_proba = Return a /\
         res !! "roc_auc" = Some (Score a))) /\
  (forall (X_test : list (list cell)) (y_test : list cell) (w : World)
          p clf X_test_scaled y_pred proba y_pred_proba cm acc e,
      (length (np_unique y_test) <= 1)%nat ->
      scaler (self w) = Some p ->
      model (self w) = Fitted clf ->
      StandardScaler_transform p X_test = Return X_test_scaled ->
      predict clf X_test_scaled = Return y_pred ->
      predict_proba clf X_test_scaled = Return proba ->
      column1 proba = Return y_pred_proba ->
      confusion_matrix y_test y_pred = Return cm ->
      accuracy_score y_test y_pred = Return acc ->
      classification_report y_test y_pred ["Not churned"; "Churned"] = Raise e ->
      roc_auc_or_zero y_test y_pred_proba = Return (Fin 0) /\
      evaluate X_test y_test w = (Raise e, w)).
Proof.
  assert (Hzero : forall (y_test : list cell) (y_pred_proba : list float64),
             (length (np_unique y_test) <= 1)%nat ->
             roc_auc_or_zero y_test y_pred_proba = Return (Fin 0)).
  { intros y pr Hn. unfold roc_auc_or_zero.
    destruct (Nat.ltb_spec 1 (length (np_unique y))); [lia|reflexivity]. }
  assert (Hboth : forall (y_test : list cell) (y_pred_proba : list float64),
             (1 < length (np_unique y_test))%nat ->
             roc_auc_or_zero y_test y_pred_proba = roc_auc_score y_test y_pred_proba).
  { intros y pr Hn. unfold roc_auc_or_zero.
    destruct (Nat.ltb_spec 1 (length (np_unique y))); [reflexivity|lia]. }
  split; [exact Hzero|]. split; [exact Hboth|]. split.
  - intros X_test y_test w w' res H.
    apply evaluate_Return in H
      as (p & clf & Xs & yp & proba & pr & cm & acc & a & rep &
          Hs & Hm & Ht & Hp & Hpp & Hc1 & Hcm & Hacc & Hroc & Hrep & ->).
    assert (Hl : forall v : metric,
               (<["confusion_matrix" := Counts cm]>
                  (<["classification_report" := Text rep]>
                     (<["roc_auc" := v]>
                        (<["accuracy" := Score acc]> ∅))) : gmap string metric)
                 !! "roc_auc" = Some v).
    { intros v. rewrite !lookup_insert_ne by discriminate.
      apply lookup_insert_eq. }
    split.
    + intros Hn. rewrite Hzero in Hroc by exact Hn.
      injection Hroc as <-. apply Hl.
    + intros Hn. rewrite Hboth in Hroc by exact Hn.
      exists p, clf, Xs, proba, pr, a. repeat split; first [assumption | apply Hl].
  - intros X_test y_test w p clf Xs yp proba pr cm acc e
      Hn Hs Hm Ht Hp Hpp Hc1 Hcm Hacc Hrep.
    split; [apply Hzero; exact Hn|].
    unfold evaluate. unfold bind, lift, get_self. cbn [self console].
    rewrite Hs, Ht, Hm, Hp, Hpp, Hc1, Hcm, Hacc, (Hzero _ _ Hn), Hrep.
    reflexivity.
Qed.

End Pipeline.

(** ** The run past its guards *)

(** Reading a numeric column that is there. *)
Lemma getitem_ok (df : DataFrame) (c : string) :
  has_column df c = true -> getitem df c = Return ((fun r => at_ r c) <$> rows df).
Proof. intros H. unfold getitem. rewrite H. reflexivity. Qed.

Lemma check_columns_ok (df : DataFrame) (cols : list string) :
  Forall (fun c => has_column df c = true) cols ->
  check_columns df cols = Return tt.
Proof.
  induction 1 as [|c cols Hc _ IH]; [reflexivity|].
  cbn [check_columns]. rewrite Hc. exact IH.
Qed.

Section RunFacts.
Context `{RT : Runtime} `{SK : Sklearn}.

(** A non-empty prepared table comes from a non-empty input. *)
Lemma prepared_nonempty now (df prepared : DataFrame) (w w1 : World) :
  prepare_features now df w = (Return prepared, w1) ->
  empty prepared = false ->
  empty df = false.
Proof.
  intros H He. destruct (empty df) eqn:Hd; [|reflexivity].
  rewrite prepare_features_empty in H by exact Hd.
  injection H as <- _. congruence.
Qed.

Lemma prepared_feature_columns now (df prepared : DataFrame) (w w1 : World) :
  prepare_features now df w = (Return prepared, w1) ->
  empty df = false ->
  Forall (fun c => has_column prepared c = true) feature_cols /\
  has_column prepared "is_churned" = true.
Proof.
  intros H Hd.
  destruct (prepare_features_Return _ _ _ _ _ H Hd)
    as (_ & C & Hrev & Hcnt & Hlab & _).
  split.
  - unfold feature_cols.
    repeat (apply Forall_cons_2;
            [rewrite C, ?Hrev, ?Hcnt; try reflexivity;
             match goal with |- ?b || _ || _ = true => destruct b end;
             reflexivity|]).
    apply Forall_nil_2.
  - rewrite C, Hlab. reflexivity.
Qed.

(** Past the two guards: what [train_and_evaluate] runs on a non-empty
    prepared table. *)
Lemma train_and_evaluate_nonempty now (df prepared : DataFrame) (w w1 : World) :
  prepare_features now df w = (Return prepared, w1) ->
  empty prepared = false ->
  train_and_evaluate now df w =
  (let* split := lift (train_test_split (design_matrix prepared) (labels prepared)) in
   let '(X_train, X_test, y_train, y_test) := split in
   train_model feature_cols X_train y_train ;;
   evaluate X_test y_test) w1.
Proof.
  intros H He.
  pose proof (prepared_nonempty _ _ _ _ _ H He) as Hd.
  destruct (prepared_feature_columns _ _ _ _ _ H Hd) as [Hcols Hlab].
  destruct (prepare_features_Return _ _ _ _ _ H Hd)
    as (_ & _ & _ & _ & _ & _ & Hs & _).
  unfold train_and_evaluate. rewrite (bind_step _ _ _ _ _ H).
  rewrite He, Hlab. cbn [orb negb].
  unfold bind at 1. unfold get_self at 1.
  rewrite Hs. cbn [feature_names_ set_feature_names].
  rewrite (filter_all (has_column prepared) feature_cols) by exact Hcols.
  cbn [is_nil feature_cols].
  unfold bind at 1. unfold lift at 1. unfold select_fillna.
  rewrite (check_columns_ok prepared _ Hcols). cbn [obind].
  unfold bind at 1. unfold lift at 1. rewrite (getitem_ok _ _ Hlab).
  reflexivity.
Qed.

End RunFacts.

Section Scaling.
Context `{RT : Runtime} `{SK : Sklearn}.

Lemma full_run_Return now (df : DataFrame) (w w' : World)
    (res : gmap string metric) :
  train_and_evaluate now df w = (Return res, w') ->
  res <> ∅ ->
  exists prepared w1 cols X y X_train X_test y_train y_test clf w2,
    prepare_features now df w = (Return prepared, w1) /\
    empty prepared = false /\
    select_fillna prepared cols (of_Z 0) = Return X /\
    getitem prepared "is_churned" = Return y /\
    train_test_split X y = Return (X_train, X_test, y_train, y_test) /\
    train_model cols X_train y_train w1 = (Return clf, w2) /\
    evaluate X_test y_test w2 = (Return res, w').
Proof.
  intros H Hne.
  apply train_and_evaluate_Return in H as (prepared & w1 & Hp & [[-> _]|[He Hrun]]);
    [congruence|].
  destruct Hrun as (cols & X & y & Xtr & Xte & ytr & yte & clf & w2 & Hrun).
  exists prepared, w1, cols, X, y, Xtr, Xte, ytr, yte, clf, w2.
  destruct Hrun as (? & ? & ? & ? & ?). repeat split; assumption.
Qed.

(** C5. The scaling parameters come from the training partition alone:
    [train_model] stores what the scaler fits on the training matrix,
    evaluation never assigns to the object and only transforms the test
    matrix with the stored parameters, so two runs on the same training
    partition end with the same parameters whatever their test partitions
    and starting states; a full run of [train_and_evaluate] ends with the
    parameters fitted on the training part of its split. *)
Theorem scaler_fitted_on_training_partition_only :
  (forall cols (X_train : list (list cell)) (y_train : list cell) (w : World) p,
      StandardScaler_fit X_train = Return p ->
      scaler (self (snd (train_model cols X_train y_train w))) = Some p) /\
  (forall (X_test : list (list cell)) (y_test : list cell) (w : World),
      self (snd (evaluate X_test y_test w)) = self w) /\
  (forall (X_test : list (list cell)) (y_test : list cell) (w w' : World) res,
      evaluate X_test y_test w = (Return res, w') ->
      exists p X_test_scaled,
        scaler (self w) = Some p /\
        StandardScaler_transform p X_test = Return X_test_scaled /\
        scaler (self w') = Some p) /\
  (forall cols (X_train : list (list cell)) (y_train : list cell)
          (X_test1 X_test2 : list (list cell)) (y_test1 y_test2 : list cell)
          (w1 w2 : World) p,
      StandardScaler_fit X_train = Return p ->
      scaler (self (snd ((train_model cols X_train y_train ;;
                          evaluate X_test1 y_test1) w1))) = Some p /\
      scaler (self (snd ((train_model cols X_train y_train ;;
                          evaluate X_test2 y_test2) w2))) = Some p) /\
  (forall now (df : DataFrame) (w w' : World) res,
      train_and_evaluate now df w = (Return res, w') ->
      res <> ∅ ->
      exists X y X_train X_test y_train y_test p X_test_scaled,
        train_test_split X y = Return (X_train, X_test, y_train, y_test) /\
        StandardScaler_fit X_train = Return p /\
        StandardScaler_transform p X_test = Return X_test_scaled /\
        scaler (self w') = Some p).
Proof.
  assert (Hfit : forall cols (X_train : list (list cell)) (y_train : list cell)
                        (w : World) p,
             StandardScaler_fit X_train = Return p ->
             scaler (self (snd (train_model cols X_train y_train w))) = Some p).
  { intros cols X y w p Hp. rewrite train_model_scaler, Hp. reflexivity. }
  assert (Hseq : forall cols (X_train : list (list cell)) (y_train : list cell)
                        (X_test : list (list cell)) (y_test : list cell)
                        (w : World) p,
             StandardScaler_fit X_train = Return p ->
             scaler (self (snd ((train_model cols X_train y_train ;;
                                 evaluate X_test y_test) w))) = Some p).
  { intros cols X y Xt yt w p Hp. specialize (Hfit cols X y w p Hp).
    unfold bind. destruct (train_model cols X y w) as [[clf|e] w1]; simpl in *.
    - rewrite keeps_self_evaluate. exact Hfit.
    - exact Hfit. }
  split; [exact Hfit|]. split; [exact keeps_self_evaluate|]. split; [|split].
  - intros X_test y_test w w' res H.
    pose proof (keeps_self_evaluate X_test y_test w) as Hk.
    rewrite H in Hk. simpl in Hk.
    apply evaluate_Return in H as (p & clf & Xs & _ & _ & _ & _ & _ & _ & _ &
                                    Hs & _ & Ht & _).
    exists p, Xs. split; [exact Hs|]. split; [exact Ht|]. rewrite Hk. exact Hs.
  - intros cols X y Xt1 Xt2 yt1 yt2 w1 w2 p Hp. split; apply Hseq; exact Hp.
  - intros now df w w' res H Hne.
    apply full_run_Return in H
      as (prepared & w1 & cols & X & y & Xtr & Xte & ytr & yte & clf & w2 &
          _ & _ & _ & _ & Hsplit & Htrain & Heval); [|exact Hne].
    apply train_model_Return in Htrain as (p & Xs & Hp & _ & _ & Hself & _).
    pose proof (keeps_self_evaluate Xte yte w2) as Hk.
    rewrite Heval in Hk. simpl in Hk.
    apply evaluate_Return in Heval as (p' & clf' & Xts & _ & _ & _ & _ & _ & _ & _ &
                                        Hs & _ & Ht & _).
    rewrite Hself in Hs. simpl in Hs. injection Hs as <-.
    exists X, y, Xtr, Xte, ytr, yte, p, Xts.
    split; [exact Hsplit|]. split; [exact Hp|]. split; [exact Ht|].
    rewrite Hk, Hself. reflexivity.
Qed.

(** C9. The matrix built on line 244 holds the selected feature columns
    with every missing value replaced by 0, so it has no missing value.  In
    a full run it is the matrix of the nine feature columns and it is what
    the split receives; when the split returns rows of its input, the
    partitions given to the scaler have no missing value either, and when
    the scaler turns a matrix without missing values into numbers, neither
    the scaled training matrix the classifier is fitted on nor the scaled
    test matrix it predicts on holds a NaN. *)
Theorem feature_matrix_has_no_missing_values :
  (forall (prepared : DataFrame) (cols : list string) (X : list (list cell)),
      select_fillna prepared cols (of_Z 0) = Return X ->
      X = (fun r => (fun c => if isna (at_ r c) then Float (of_Z 0) else at_ r c)
                      <$> cols) <$> rows prepared /\
      Forall (Forall (fun c => isna c = false)) X) /\
  (forall now (df : DataFrame) (w w' : World) res,
      train_and_evaluate now df w = (Return res, w') ->
      res <> ∅ ->
      exists prepared w1 X y X_train X_test y_train y_test p X_scaled clf
             X_test_scaled,
        prepare_features now df w = (Return prepared, w1) /\
        select_fillna prepared feature_cols (of_Z 0) = Return X /\
        getitem prepared "is_churned" = Return y /\
        train_test_split X y = Return (X_train, X_test, y_train, y_test) /\
        StandardScaler_fit X_train = Return p /\
        StandardScaler_transform p X_train = Return X_scaled /\
        LogisticRegression_fit X_scaled y_train = Return clf /\
        StandardScaler_transform p X_test = Return X_test_scaled /\
        Forall (Forall (fun c => isna c = false)) X /\
        ((forall row, row ∈ X_train ++ X_test -> row ∈ X) ->
         Forall (Forall (fun c => isna c = false)) X_train /\
         Forall (Forall (fun c => isna c = false)) X_test /\
         ((forall q (M : list (list cell)) Ms,
              Forall (Forall (fun c => isna c = false)) M ->
              StandardScaler_transform q M = Return Ms ->
              Forall (Forall (fun x => x <> NaN)) Ms) ->
          Forall (Forall (fun x => x <> NaN)) X_scaled /\
          Forall (Forall (fun x => x <> NaN)) X_test_scaled))).
Proof.
  split; [exact select_fillna_Return|].
  intros now df w w' res H Hne.
  pose proof H as H0.
  apply full_run_Return in H0
    as (prepared & w1 & _ & _ & _ & _ & _ & _ & _ & _ & _ &
        Hprep & He & _); [|exact Hne].
  pose proof (prepared_nonempty _ _ _ _ _ Hprep He) as Hd.
  destruct (prepared_feature_columns _ _ _ _ _ Hprep Hd) as [Hcols Hlab].
  rewrite (train_and_evaluate_nonempty _ _ _ _ _ Hprep He) in H.
  unfold bind at 1 in H. unfold lift at 1 in H.
  destruct (train_test_split (design_matrix prepared) (labels prepared))
    as [[[[Xtr Xte] ytr] yte]|e] eqn:Hsplit; [|discriminate H].
  unfold bind at 1 in H.
  destruct (train_model feature_cols Xtr ytr w1) as [[clf|e] w2] eqn:Htrain;
    [|discriminate H].
  apply train_model_Return in Htrain as (p & Xs & Hp & Ht & Hfit & Hself & _).
  destruct (evaluate_Return _ _ _ _ _ H)
    as (p' & clf' & Xts & _ & _ & _ & _ & _ & _ & _ & Hs & _ & Htt & _).
  rewrite Hself in Hs. simpl in Hs. injection Hs as <-.
  assert (HX : select_fillna prepared feature_cols (of_Z 0) =
               Return (design_matrix prepared)).
  { unfold select_fillna. rewrite (check_columns_ok _ _ Hcols). reflexivity. }
  destruct (select_fillna_Return _ _ _ HX) as [_ Hnan].
  exists prepared, w1, (design_matrix prepared), (labels prepared),
    Xtr, Xte, ytr, yte, p, Xs, clf, Xts.
  split; [exact Hprep|]. split; [exact HX|].
  split; [apply getitem_ok; exact Hlab|]. split; [exact Hsplit|].
  split; [exact Hp|]. split; [exact Ht|]. split; [exact Hfit|].
  split; [exact Htt|]. split; [exact Hnan|].
  intros Hsub.
  assert (Hparts : Forall (Forall (fun c => isna c = false)) Xtr /\
                   Forall (Forall (fun c => isna c = false)) Xte).
  { rewrite Forall_forall in Hnan.
    split; apply Forall_forall; intros row Hrow; apply Hnan, Hsub;
      apply elem_of_app; [left|right]; exact Hrow. }
  destruct Hparts as [Htr Hte].
  split; [exact Htr|]. split; [exact Hte|].
  intros Hscale. split.
  - exact (Hscale p Xtr Xs Htr Ht).
  - exact (Hscale p Xte Xts Hte Htt).
Qed.

End Scaling.

(** ** The claims on concrete tables *)

Lemma prepare_features_deterministic_witness :
  normalize demo_now = normalize (demo_now + 5000) /\
  fst (prepare_features (RT:=demo_runtime) (SK:=demo_sklearn)
         demo_now batch5 demo_world) =
  fst (prepare_features (RT:=demo_runtime) (SK:=demo_sklearn)
         (demo_now + 5000) batch5 (snd (demo_prepare batch5))).
Proof.
  assert (H : normalize demo_now = normalize (demo_now + 5000))
    by (vm_compute; reflexivity).
  split; [exact H|].
  exact (proj1 (prepare_features_deterministic (RT:=demo_runtime)
                  (SK:=demo_sklearn) demo_now (demo_now + 5000) batch5
                  demo_world (snd (demo_prepare batch5)) H)).
Defined.

Lemma demo_prepare_batch5 :
  demo_prepare batch5 = (Return (demo_prepared batch5), snd (demo_prepare batch5)).
Proof. vm_compute. reflexivity. Defined.

Lemma demo_row_batch5 : demo_row batch5 2 ∈ rows (demo_prepared batch5).
Proof. apply (list_elem_of_lookup_2 _ 2). vm_compute. reflexivity. Defined.



Lemma recency_bucket_bins_witness :
  demo_prepare batch5 = (Return (demo_prepared batch5), snd (demo_prepare batch5)) /\
  empty batch5 = false /\
  demo_row batch5 2 ∈ rows (demo_prepared batch5) /\
  exists d : Z,
    at_ (demo_row batch5 2) "days_since_last_order" = Float (of_Z d) /\
    at_ (demo_row batch5 2) "recency_bucket" = Float (of_Z (bucket d)) /\
    (1 <= bucket d <= 4)%Z.
Proof.
  split; [exact demo_prepare_batch5|]. split; [reflexivity|].
  split; [exact demo_row_batch5|].
  destruct (recency_bucket_bins (RT:=demo_runtime) (SK:=demo_sklearn)
              demo_now batch5 _ demo_world _ _
              demo_prepare_batch5 eq_refl demo_row_batch5)
    as (d & Hd & _ & _ & Hb & Hr & _).
  exists d. split; [exact Hd|]. split; [exact Hb|exact Hr].
Defined.

Lemma is_high_value_at_median_witness :
  demo_prepare batch5 = (Return (demo_prepared batch5), snd (demo_prepare batch5)) /\
  empty batch5 = false /\
  revenue batch5 = of_Z <$> [10; 20; 30; 40; 50]%Z /\
  median (revenue batch5) = of_Z 30 /\
  num "is_high_value" <$> rows (demo_prepared batch5) = of_Z <$> [0; 0; 1; 1; 1]%Z.
Proof.
  split; [exact demo_prepare_batch5|]. split; [reflexivity|].
  split; [reflexivity|].
  refine (proj2 (is_high_value_at_median (RT:=demo_runtime) (SK:=demo_sklearn)
                   demo_now batch5 _ demo_world _
                   demo_prepare_batch5 eq_refl) eq_refl _).
  repeat (apply Forall_cons_2; [reflexivity|]). apply Forall_nil_2.
Defined.

Lemma demo_prepare_batch_unlabelled :
  demo_prepare batch_unlabelled =
  (Return (demo_prepared batch_unlabelled), snd (demo_prepare batch_unlabelled)).
Proof. vm_compute. reflexivity. Defined.

Lemma median_counts_unlabelled_rows_witness :
  demo_prepare batch_unlabelled =
    (Return (demo_prepared batch_unlabelled), snd (demo_prepare batch_unlabelled)) /\
  num "is_high_value" <$> rows (demo_prepared batch_unlabelled) = of_Z <$> [0; 0]%Z /\
  (fun r => of_bool (fge (num "revenue_12m" r)
                       (median (num "revenue_12m" <$> rows (demo_prepared batch_unlabelled)))))
    <$> rows (demo_prepared batch_unlabelled) = of_Z <$> [0; 1]%Z.
Proof.
  split; [exact demo_prepare_batch_unlabelled|].
  destruct (proj2 (median_counts_unlabelled_rows (RT:=demo_runtime)
                     (SK:=demo_sklearn) demo_now demo_world
                     (snd (demo_prepare batch_unlabelled)))
              _ demo_prepare_batch_unlabelled)
    as (_ & _ & Hall & Hsurv).
  split; [exact Hall|exact Hsurv].
Defined.

Lemma demo_prepare_batch_no_labels :
  demo_prepare batch_no_labels =
  (Return (demo_prepared batch_no_labels), snd (demo_prepare batch_no_labels)).
Proof. vm_compute. reflexivity. Defined.

(** C1 as stated fails: on a batch in which no customer has a label the
    prepared table is empty, and [train_and_evaluate] returns the empty
    result instead of raising; no model was produced. *)
Lemma train_and_evaluate_returns_on_empty_table :
  demo_prepare batch_no_labels =
    (Return (demo_prepared batch_no_labels), snd (demo_prepare batch_no_labels)) /\
  empty (demo_prepared batch_no_labels) = true /\
  fst (demo_run batch_no_labels) = Return ∅ /\
  (forall e, fst (demo_run batch_no_labels) <> Raise e) /\
  model (self (snd (demo_run batch_no_labels))) = NoModel.
Proof.
  split; [exact demo_prepare_batch_no_labels|].
  split; [vm_compute; reflexivity|].
  assert (H : fst (demo_run batch_no_labels) = Return ∅) by (vm_compute; reflexivity).
  split; [exact H|]. split; [|vm_compute; reflexivity].
  intros e He. rewrite H in He. discriminate He.
Qed.

Lemma empty_prepared_table_returns_empty_result_witness :
  demo_prepare batch_no_labels =
    (Return (demo_prepared batch_no_labels), snd (demo_prepare batch_no_labels)) /\
  empty (demo_prepared batch_no_labels) = true /\
  demo_run batch_no_labels =
    (Return ∅,
     {| self := self (snd (demo_prepare batch_no_labels));
        console := console (snd (demo_prepare batch_no_labels)) ++
          ["train_and_evaluate: no valid data after prepare_features"] |}) /\
  model (self (snd (demo_prepare batch_no_labels))) = model (self demo_world).
Proof.
  assert (He : empty (demo_prepared batch_no_labels) = true)
    by (vm_compute; reflexivity).
  split; [exact demo_prepare_batch_no_labels|]. split; [exact He|].
  destruct (proj1 (empty_prepared_table_returns_empty_result
                     (RT:=demo_runtime) (SK:=demo_sklearn))
              demo_now batch_no_labels _ demo_world _
              demo_prepare_batch_no_labels He)
    as (Hrun & _ & Hmodel & _).
  split; [exact Hrun|exact Hmodel].
Defined.

Lemma demo_run_batch12 :
  demo_run batch12 = (Return (demo_results batch12), snd (demo_run batch12)).
Proof. vm_compute. reflexivity. Defined.

Lemma demo_results_batch12 : demo_results batch12 <> ∅.
Proof.
  intros E. apply (f_equal (fun m : gmap string metric => m !! "accuracy")) in E.
  vm_compute in E. discriminate E.
Defined.

(** The failing input of C4: an object trained on twelve customers, and a
    test partition of two customers who both stayed and are both predicted
    to stay.  The ROC-AUC step gives 0.0, the report of line 254 rejects the
    single class, and the evaluation raises. *)
Lemma roc_auc_zero_then_report_raises_witness :
  (length (np_unique one_class_y) <= 1)%nat /\
  _trained (self (snd (demo_run batch12))) = true /\
  roc_auc_or_zero (SK:=demo_sklearn) one_class_y [Fin (1 # 2); Fin (1 # 2)] =
    Return (Fin 0) /\
  evaluate (SK:=demo_sklearn) stayers_X one_class_y (snd (demo_run batch12)) =
    (Raise (LibraryError "Number of classes does not match size of target_names"),
     snd (demo_run batch12)).
Proof.
  assert (Hn : (length (np_unique one_class_y) <= 1)%nat) by (vm_compute; lia).
  split; [exact Hn|]. split; [vm_compute; reflexivity|].
  eapply (proj2 (proj2 (proj2 (roc_auc_zero_then_report_raises
                                 (SK:=demo_sklearn))))
            stayers_X one_class_y (snd (demo_run batch12)));
    [exact Hn | vm_compute; reflexivity ..].
Defined.

Lemma scaler_fitted_on_training_partition_only_witness :
  demo_run batch12 = (Return (demo_results batch12), snd (demo_run batch12)) /\
  demo_results batch12 <> ∅ /\
  exists X y X_train X_test y_train y_test p X_test_scaled,
    train_test_split (Sklearn:=demo_sklearn) X y =
      Return (X_train, X_test, y_train, y_test) /\
    StandardScaler_fit (Sklearn:=demo_sklearn) X_train = Return p /\
    StandardScaler_transform (Sklearn:=demo_sklearn) p X_test = Return X_test_scaled /\
    scaler (self (snd (demo_run batch12))) = Some p.
Proof.
  split; [exact demo_run_batch12|]. split; [exact demo_results_batch12|].
  exact (proj2 (proj2 (proj2 (proj2 (scaler_fitted_on_training_partition_only
                                       (RT:=demo_runtime) (SK:=demo_sklearn)))))
           demo_now batch12 demo_world _ _ demo_run_batch12 demo_results_batch12).
Defined.

Lemma demo_prepare_batch12_gaps :
  demo_prepare batch12_gaps =
  (Return (demo_prepared batch12_gaps), snd (demo_prepare batch12_gaps)).
Proof. vm_compute. reflexivity. Defined.

Lemma demo_run_batch12_gaps :
  demo_run batch12_gaps =
  (Return (demo_results batch12_gaps), snd (demo_run batch12_gaps)).
Proof. vm_compute. reflexivity. Defined.

Lemma demo_results_batch12_gaps : demo_results batch12_gaps <> ∅.
Proof.
  intros E. apply (f_equal (fun m : gmap string metric => m !! "accuracy")) in E.
  vm_compute in E. discriminate E.
Defined.

(** The small scaler returns numbers only, one row per row. *)
Lemma demo_transform_numbers (q : list Q) (M : list (list cell))
    (Ms : list (list float64)) :
  StandardScaler_transform (Sklearn:=demo_sklearn) q M = Return Ms ->
  Forall (Forall (fun x => x <> NaN)) Ms /\ length Ms = length M.
Proof.
  intros H. change (demo_transform q M = Return Ms) in H.
  unfold demo_transform in H. injection H as <-. split; [|apply length_fmap].
  apply Forall_fmap, Forall_true. intros row. revert q.
  induction row as [|c row IH]; intros [|m q]; cbn [zip_with];
    try apply Forall_nil_2.
  apply Forall_cons_2; [discriminate|apply IH].
Defined.

Lemma demo_split_batch12_gaps :
  train_test_split (Sklearn:=demo_sklearn)
    (design_matrix (demo_prepared batch12_gaps))
    (labels (demo_prepared batch12_gaps)) =
  Return (take 9 (design_matrix (demo_prepared batch12_gaps)),
          drop 9 (design_matrix (demo_prepared batch12_gaps)),
          take 9 (labels (demo_prepared batch12_gaps)),
          drop 9 (labels (demo_prepared batch12_gaps))).
Proof. vm_compute. reflexivity. Defined.

Lemma Return_pair_inj {A W} (a b : A) (w w' : W) :
  (Return a, w) = (Return b, w') -> a = b.
Proof. intros [= -> _]. reflexivity. Defined.

Lemma Return_split_inj {A B} (a a' b b' : A) (c c' d d' : B) :
  @Return (A * A * B * B) (a, b, c, d) = Return (a', b', c', d') ->
  a = a' /\ b = b'.
Proof. intros [= -> -> _ _]. split; reflexivity. Defined.

Lemma select_fillna_design (prepared : DataFrame) (X : list (list cell)) :
  select_fillna prepared feature_cols (of_Z 0) = Return X ->
  X = design_matrix prepared.
Proof.
  unfold select_fillna.
  destruct (check_columns prepared feature_cols); [|discriminate].
  intros [= <-]. reflexivity.
Defined.

Lemma getitem_labels (prepared : DataFrame) (y : list cell) :
  getitem prepared "is_churned" = Return y -> y = labels prepared.
Proof.
  unfold getitem. destruct (has_column prepared "is_churned"); [|discriminate].
  intros [= <-]. reflexivity.
Defined.

Lemma feature_matrix_has_no_missing_values_witness :
  demo_run batch12_gaps =
    (Return (demo_results batch12_gaps), snd (demo_run batch12_gaps)) /\
  demo_results batch12_gaps <> ∅ /\
  isna (at_ (demo_row batch12_gaps 1) "log_revenue") = true /\
  isna (at_ (demo_row batch12_gaps 2) "order_count_sq") = true /\
  exists X_train X_test X_scaled X_test_scaled,
    X_train ++ X_test = design_matrix (demo_prepared batch12_gaps) /\
    length X_train = 9%nat /\ length X_test = 3%nat /\
    Forall (Forall (fun c => isna c = false)) X_train /\
    Forall (Forall (fun c => isna c = false)) X_test /\
    length X_scaled = 9%nat /\ length X_test_scaled = 3%nat /\
    Forall (Forall (fun x => x <> NaN)) X_scaled /\
    Forall (Forall (fun x => x <> NaN)) X_test_scaled.
Proof.
  split; [exact demo_run_batch12_gaps|]. split; [exact demo_results_batch12_gaps|].
  split; [vm_compute; reflexivity|]. split; [vm_compute; reflexivity|].
  assert (L9 : length (take 9 (design_matrix (demo_prepared batch12_gaps))) = 9%nat)
    by (vm_compute; reflexivity).
  assert (L3 : length (drop 9 (design_matrix (demo_prepared batch12_gaps))) = 3%nat)
    by (vm_compute; reflexivity).
  destruct (proj2 (feature_matrix_has_no_missing_values
                     (RT:=demo_runtime) (SK:=demo_sklearn))
              demo_now batch12_gaps demo_world _ _
              demo_run_batch12_gaps demo_results_batch12_gaps)
    as (prepared & w1 & X & y & X_train & X_test & y_train & y_test & p &
        X_scaled & clf & X_test_scaled &
        Hprep & HX & Hy & Hsplit & Hp & Ht & _ & Htt & _ & Hparts).
  fold (demo_prepare batch12_gaps) in Hprep.
  rewrite demo_prepare_batch12_gaps in Hprep.
  apply Return_pair_inj in Hprep. subst prepared.
  apply select_fillna_design in HX. apply getitem_labels in Hy. subst X y.
  rewrite demo_split_batch12_gaps in Hsplit.
  apply Return_split_inj in Hsplit as [<- <-].
  destruct Hparts as (Htr & Hte & Hscaled).
  { intros row Hrow. rewrite take_drop in Hrow. exact Hrow. }
  destruct Hscaled as [Hs Hts].
  { intros q M Ms _ HM. exact (proj1 (demo_transform_numbers q M Ms HM)). }
  exists (take 9 (design_matrix (demo_prepared batch12_gaps))),
    (drop 9 (design_matrix (demo_prepared batch12_gaps))), X_scaled, X_test_scaled.
  split; [apply take_drop|].
  split; [exact L9|]. split; [exact L3|].
  split; [exact Htr|]. split; [exact Hte|].
  split; [rewrite (proj2 (demo_transform_numbers _ _ _ Ht)); exact L9|].
  split; [rewrite (proj2 (demo_transform_numbers _ _ _ Htt)); exact L3|].
  split; [exact Hs|exact Hts].
Defined.

(** ** Feature preparation: columns, rows and failures *)

Lemma columns_setitem (df : DataFrame) (c : string) (s : list float64) :
  columns (setitem df c s) =
  columns df ++ (if has_column df c then [] else [c]).
Proof.
  unfold setitem; cbn [columns]. destruct (has_column df c).
  - rewrite app_nil_r. reflexivity.
  - reflexivity.
Qed.

Lemma is_float_numeric (c : cell) : is_float c = true -> numeric c = true.
Proof. destruct c; simpl; congruence. Qed.

Lemma is_float_not_null (c : cell) : is_float c = true -> is_null c = false.
Proof. destruct c; simpl; congruence. Qed.

Lemma to_floats_numeric (s : list cell) :
  Forall (fun c => numeric c = true) s -> to_floats s = Return (numf <$> s).
Proof.
  induction 1 as [|c s Hc _ IH]; [reflexivity|].
  destruct c as [x| | |]; try discriminate Hc;
    cbn [to_floats as_float obind]; rewrite IH; reflexivity.
Qed.


(** On a column that arithmetic accepts, a ufunc raises as soon as one
    entry is [None]. *)
Lemma ufunc_operand_ok (s : list cell) :
  Forall (fun c => is_float c = true) s -> ufunc_operand s = Return tt.
Proof.
  intros H. unfold ufunc_operand.
  replace (existsb is_null s) with false; [reflexivity|].
  symmetry. apply existsb_false_Forall.
  eapply Forall_impl; [exact H|]. intros c. apply is_float_not_null.
Qed.


Lemma Forall_numeric_put_ne (c c' : string) h (l : list (gmap string cell)) :
  c <> c' ->
  Forall (fun r => numeric (at_ r c') = true) l ->
  Forall (fun r => numeric (at_ r c') = true) (put c h <$> l).
Proof.
  intros Hne HF. apply Forall_fmap. eapply Forall_impl; [exact HF|].
  intros r Hr. simpl. rewrite at_put_ne by exact Hne. exact Hr.
Qed.

Lemma Forall_float_put_ne (c c' : string) h (l : list (gmap string cell)) :
  c <> c' ->
  Forall (fun r => is_float (at_ r c') = true) l ->
  Forall (fun r => is_float (at_ r c') = true) (put c h <$> l).
Proof.
  intros Hne HF. apply Forall_fmap. eapply Forall_impl; [exact HF|].
  intros r Hr. simpl. rewrite at_put_ne by exact Hne. exact Hr.
Qed.

Lemma Forall_float_put_eq (c : string) h (l : list (gmap string cell)) :
  Forall (fun r => is_float (at_ r c) = true) (put c h <$> l).
Proof.
  apply Forall_fmap, Forall_true. intros r. simpl. rewrite at_put_eq. reflexivity.
Qed.

Lemma Forall_float_numeric (c : string) (l : list (gmap string cell)) :
  Forall (fun r => is_float (at_ r c) = true) l ->
  Forall (fun r => numeric (at_ r c) = true) l.
Proof.
  intros H. eapply Forall_impl; [exact H|]. intros r. apply is_float_numeric.
Qed.

Lemma to_floats_column (df : DataFrame) (c : string) :
  Forall (fun r => numeric (at_ r c) = true) (rows df) ->
  to_floats ((fun r => at_ r c) <$> rows df) = Return (num c <$> rows df).
Proof.
  intros HF. rewrite to_floats_numeric.
  - rewrite <- list_fmap_compose. reflexivity.
  - apply Forall_fmap. exact HF.
Qed.

Lemma ufunc_operand_column (df : DataFrame) (c : string) :
  Forall (fun r => is_float (at_ r c) = true) (rows df) ->
  ufunc_operand ((fun r => at_ r c) <$> rows df) = Return tt.
Proof. intros HF. apply ufunc_operand_ok, Forall_fmap. exact HF. Qed.

Ltac eval_bool_decide :=
  repeat match goal with
    | |- context [bool_decide (@eq string ?a ?b)] =>
        let v := eval vm_compute in (bool_decide (a = b)) in
        change (bool_decide (a = b)) with v
    end.

(** Carry what is known of [prev] over to [o], the frame after one more
    assignment: numeric columns stay numeric, columns stay present. *)
Ltac carry prev o R C :=
  repeat match goal with
    | F : Forall (fun r => numeric (at_ r ?c') = true) (rows prev) |- _ =>
        lazymatch goal with
        | _ : Forall (fun r => numeric (at_ r c') = true) (rows o) |- _ => fail
        | _ => assert (Forall (fun r => numeric (at_ r c') = true) (rows o))
                 by (rewrite R; apply Forall_numeric_put_ne; [discriminate|exact F])
        end
    | F : Forall (fun r => is_float (at_ r ?c') = true) (rows prev) |- _ =>
        lazymatch goal with
        | _ : Forall (fun r => is_float (at_ r c') = true) (rows o) |- _ => fail
        | _ => assert (Forall (fun r => is_float (at_ r c') = true) (rows o))
                 by (rewrite R; apply Forall_float_put_ne; [discriminate|exact F])
        end
    | H : has_column prev ?c' = true |- _ =>
        lazymatch goal with
        | _ : has_column o c' = true |- _ => fail
        | _ => assert (has_column o c' = true) by (rewrite C, H; reflexivity)
        end
    end.

Ltac assign_fw prev c o R C K :=
  cbv zeta; unfold cut;
  rewrite <- ?list_fmap_compose, ?zip_with_fmap_both;
  lazymatch goal with
  | |- context [setitem prev c (?h <$> rows prev)] =>
      set (o := setitem prev c (h <$> rows prev));
      assert (R : rows o = put c h <$> rows prev)
        by apply rows_setitem_fmap;
      assert (C : forall c', has_column o c' = has_column prev c' || bool_decide (c' = c))
        by (intros; apply has_column_setitem);
      assert (K : columns o = columns prev ++ (if has_column prev c then [] else [c]))
        by apply columns_setitem;
      clearbody o
  end;
  carry prev o R C.

Ltac read_fw d c :=
  rewrite (getitem_ok d c) by assumption; cbn [obind].

Ltac num_fw d c :=
  rewrite (to_floats_column d c) by assumption; cbn [obind].

Section PrepareTotal.
Context `{RT : Runtime}.

(** Lines 70-76 return whenever the three columns they read are present,
    the revenue holds numbers only, and the order count numbers or [None];
    they append the derived columns the table did not have yet. *)
Lemma derived_columns_ok (out : DataFrame) :
  has_column out "revenue_12m" = true ->
  has_column out "order_count_12m" = true ->
  has_column out "days_since_last_order" = true ->
  Forall (fun r => is_float (at_ r "revenue_12m") = true) (rows out) ->
  Forall (fun r => numeric (at_ r "order_count_12m") = true) (rows out) ->
  Forall (fun r => is_float (at_ r "days_since_last_order") = true) (rows out) ->
  match derived_columns out with
  | Return out' =>
      columns out' =
      columns out ++ List.filter (fun c => negb (has_column out c)) derived_names
  | Raise _ => False
  end.
Proof.
  intros Hrev Hcnt Hdays Frev Fcnt Fdays.
  pose proof (Forall_float_numeric _ _ Frev) as Nrev.
  pose proof (Forall_float_numeric _ _ Fdays) as Ndays.
  unfold derived_columns.
  read_fw out "revenue_12m". read_fw out "order_count_12m".
  num_fw out "order_count_12m". num_fw out "revenue_12m".
  assign_fw out "avg_order_value" o1 R1 C1 K1.
  read_fw o1 "revenue_12m".
  rewrite (ufunc_operand_column o1 "revenue_12m") by assumption. cbn [obind].
  num_fw o1 "revenue_12m".
  assign_fw o1 "log_revenue" o2 R2 C2 K2.
  read_fw o2 "order_count_12m". num_fw o2 "order_count_12m".
  assign_fw o2 "order_count_sq" o3 R3 C3 K3.
  read_fw o3 "days_since_last_order". num_fw o3 "days_since_last_order".
  assign_fw o3 "recency_bucket" o4 R4 C4 K4.
  read_fw o4 "revenue_12m". num_fw o4 "revenue_12m".
  assign_fw o4 "is_high_value" o5 R5 C5 K5.
  read_fw o5 "order_count_12m". num_fw o5 "order_count_12m".
  assign_fw o5 "orders_per_month" o6 R6 C6 K6.
  read_fw o6 "revenue_12m". read_fw o6 "order_count_12m".
  num_fw o6 "order_count_12m". num_fw o6 "revenue_12m".
  cbv zeta. rewrite columns_setitem, K6, K5, K4, K3, K2, K1.
  rewrite C6, C5, C4, C3, C2, C1. rewrite C5, C4, C3, C2, C1.
  rewrite C4, C3, C2, C1. rewrite C3, C2, C1. rewrite C2, C1. rewrite C1.
  eval_bool_decide. rewrite !orb_false_r. unfold derived_names.
  cbn [List.filter]. rewrite <- !app_assoc.
  destruct (has_column out "avg_order_value"), (has_column out "log_revenue"),
    (has_column out "order_count_sq"), (has_column out "recency_bucket"),
    (has_column out "is_high_value"), (has_column out "orders_per_month"),
    (has_column out "revenue_per_order"); reflexivity.
Qed.

End PrepareTotal.

Section PrepareOutcome.
Context `{RT : Runtime} `{SK : Sklearn}.

(** Lines 63-69: the frame they produce when the dates can be subtracted
    from the reference date. *)
Lemma days_column_ok now (df : DataFrame) :
  (has_column df "last_order_date" = true ->
   datetime_failure ((fun r => at_ r "last_order_date") <$> rows df) = None) ->
  exists o,
    days_column now df = Return o /\
    rows o = days_row now (has_column df "last_order_date") <$> rows df /\
    (forall c, has_column o c =
               has_column df c || bool_decide (c = "days_since_last_order")) /\
    columns o = columns df ++
      (if has_column df "days_since_last_order" then []
       else ["days_since_last_order"]) /\
    Forall (fun r => is_float (at_ r "days_since_last_order") = true) (rows o).
Proof.
  intros Hdates.
  destruct (days_column_total now df Hdates) as (o & Ho & C).
  destruct (days_column_Return _ _ _ Ho) as [R _].
  exists o. split; [exact Ho|]. split; [exact R|]. split; [exact C|]. split.
  - unfold days_column in Ho.
    destruct (has_column df "last_order_date").
    + destruct (getitem df "last_order_date") as [raw|e]; [|discriminate Ho].
      cbn [obind] in Ho.
      destruct (datetime_failure raw) as [e|]; [discriminate Ho|].
      cbn [raise_if obind] in Ho.
      match type of Ho with
      | context [getitem ?d "days_since_last_order"] => set (o1 := d) in *
      end.
      destruct (getitem o1 "days_since_last_order") as [s|e]; [|discriminate Ho].
      cbn [obind] in Ho.
      destruct (to_floats s) as [d|e]; [|discriminate Ho].
      cbn [obind] in Ho. injection Ho as <-.
      rewrite columns_setitem. subst o1.
      rewrite has_column_setitem, orb_true_r, app_nil_r.
      apply columns_setitem.
    + injection Ho as <-. apply columns_setitem.
  - rewrite R. apply Forall_fmap, Forall_true. intros r. simpl.
    unfold days_row. destruct (has_column df "last_order_date");
      rewrite at_put_eq; reflexivity.
Qed.

Lemma filter_ext_elem {A} (f g : A -> bool) (l : list A) :
  (forall a, a ∈ l -> f a = g a) -> List.filter f l = List.filter g l.
Proof.
  intros H. apply List.filter_ext_in. intros a Ha.
  apply H, list_elem_of_In, Ha.
Qed.

Lemma days_not_derived : "days_since_last_order" ∉ derived_names.
Proof.
  unfold derived_names. rewrite !not_elem_of_cons.
  repeat split; try discriminate. apply not_elem_of_nil.
Qed.

Lemma cell_days_row (P : cell -> bool) now has_date c
    (l : list (gmap string cell)) :
  c <> "days_since_last_order" ->
  Forall (fun r => P (at_ r c) = true) (days_row now has_date <$> l) <->
  Forall (fun r => P (at_ r c) = true) l.
Proof.
  intros Hc. rewrite Forall_fmap. apply Forall_iff. intros r. simpl.
  unfold days_row.
  destruct has_date; rewrite !at_put_ne by congruence; reflexivity.
Qed.

(** A returning call found dates it could subtract. *)
Lemma prepare_features_dates now (df out : DataFrame) (w w' : World) :
  prepare_features now df w = (Return out, w') ->
  empty df = false ->
  has_column df "last_order_date" = true ->
  datetime_failure ((fun r => at_ r "last_order_date") <$> rows df) = None.
Proof.
  intros H He Hd. unfold prepare_features in H. rewrite He in H.
  unfold bind, lift in H.
  destruct (days_column now df) as [o1|e] eqn:E1; [|discriminate H].
  exact (days_column_dates _ _ _ E1 Hd).
Qed.

(** The result of [prepare_features] on a table it accepts. *)
Lemma prepare_features_ok now (df : DataFrame) (w : World) :
  empty df = false ->
  (has_column df "last_order_date" = true ->
   datetime_failure ((fun r => at_ r "last_order_date") <$> rows df) = None) ->
  has_column df "revenue_12m" = true ->
  has_column df "order_count_12m" = true ->
  has_column df "is_churned" = true ->
  Forall (fun r => is_float (at_ r "revenue_12m") = true /\
                   numeric (at_ r "order_count_12m") = true) (rows df) ->
  exists out,
    prepare_features now df w =
      (Return out,
       {| self := set_feature_names feature_cols (self w); console := console w |}) /\
    columns out =
      columns df ++
      List.filter (fun c => negb (has_column df c))
        ("days_since_last_order" :: derived_names) /\
    rows out =
      prepared_row now (has_column df "last_order_date") (median (revenue df))
        <$> List.filter labelled (rows df).
Proof.
  intros He Hdates Hrev Hcnt Hlab Hnum.
  destruct (days_column_ok now df Hdates) as (o1 & Ho1 & R1 & C1 & K1 & Fdays).
  assert (Frev : Forall (fun r => is_float (at_ r "revenue_12m") = true) (rows o1)).
  { rewrite R1. apply cell_days_row; [discriminate|].
    eapply Forall_impl; [exact Hnum|]. intros r [Hr _]. exact Hr. }
  assert (Fcnt : Forall (fun r => numeric (at_ r "order_count_12m") = true) (rows o1)).
  { rewrite R1. apply cell_days_row; [discriminate|].
    eapply Forall_impl; [exact Hnum|]. intros r [_ Hr]. exact Hr. }
  pose proof (derived_columns_ok o1) as Hd.
  rewrite !C1, Hrev, Hcnt, orb_true_r in Hd.
  specialize (Hd eq_refl eq_refl eq_refl Frev Fcnt Fdays).
  destruct (derived_columns o1) as [o2|e] eqn:Ho2; [|destruct Hd].
  destruct (derived_columns_Return _ _ Ho2) as (_ & C2 & _).
  assert (Hrun : exists out w',
             prepare_features now df w = (Return out, w') /\
             columns out = columns o2).
  { unfold prepare_features. rewrite He. unfold bind, lift, modify.
    rewrite Ho1, Ho2. unfold dropna.
    rewrite C2, C1, Hlab. cbn [orb]. eexists _, _. split; reflexivity. }
  destruct Hrun as (out & w' & Hrun & Hcols).
  destruct (prepare_features_Return _ _ _ _ _ Hrun He)
    as (R & _ & _ & _ & _ & _ & Hs & Hc).
  exists out. split; [|split; [|exact R]].
  - rewrite Hrun. destruct w' as [s' c']. simpl in Hs, Hc. subst. reflexivity.
  - rewrite Hcols, Hd, K1. cbn [List.filter].
    rewrite (filter_ext_elem (fun c => negb (has_column o1 c))
               (fun c => negb (has_column df c)) derived_names).
    + destruct (has_column df "days_since_last_order"); cbn [negb];
        rewrite <- app_assoc; reflexivity.
    + intros c Hc'. rewrite C1.
      destruct (bool_decide (c = "days_since_last_order")) eqn:E.
      * apply bool_decide_eq_true in E. subst c.
        destruct (days_not_derived Hc').
      * rewrite orb_false_r. reflexivity.
Qed.


End PrepareOutcome.

Section PrepareFailures.
Context `{RT : Runtime} `{SK : Sklearn}.


End PrepareFailures.

(** ** Feature preparation: what the rows hold *)

Lemma bucket_monotone (d1 d2 : Z) : (d1 <= d2)%Z -> (bucket d1 <= bucket d2)%Z.
Proof.
  intros H. unfold bucket.
  destruct (Z.leb_spec d1 30), (Z.leb_spec d1 60), (Z.leb_spec d1 90),
    (Z.leb_spec d2 30), (Z.leb_spec d2 60), (Z.leb_spec d2 90); lia.
Qed.

Section PreparedValues.
Context `{RT : Runtime} `{SK : Sklearn}.

Lemma log_of_prepared_row now has_date med (r0 : gmap string cell) :
  let r := prepared_row now has_date med r0 in
  at_ r "log_revenue" = Float (log10 (fadd (num "revenue_12m" r) (of_Z 1))).
Proof.
  unfold prepared_row, derived_row; cbv zeta.
  rewrite !at_put_ne by discriminate. rewrite at_put_eq.
  rewrite !num_put_ne by discriminate. reflexivity.
Qed.

Lemma sq_of_prepared_row now has_date med (r0 : gmap string cell) :
  let r := prepared_row now has_date med r0 in
  at_ r "order_count_sq" = Float (fpow2 (num "order_count_12m" r)).
Proof.
  unfold prepared_row, derived_row; cbv zeta.
  rewrite !at_put_ne by discriminate. rewrite at_put_eq.
  rewrite !num_put_ne by discriminate. reflexivity.
Qed.

Lemma opm_of_prepared_row now has_date med (r0 : gmap string cell) :
  let r := prepared_row now has_date med r0 in
  at_ r "orders_per_month" = Float (fdiv (num "order_count_12m" r) (of_Z 12)).
Proof.
  unfold prepared_row, derived_row; cbv zeta.
  rewrite !at_put_ne by discriminate. rewrite at_put_eq.
  rewrite !num_put_ne by discriminate. reflexivity.
Qed.

(** X3. The rows of the prepared table are the labelled rows of the input,
    in the input's order: none has a missing label, there are as many as
    the input has labelled rows, and every column other than the eight
    derived ones reads as it did in the input. *)
Theorem prepared_rows_are_the_labelled_rows now (df out : DataFrame)
    (w w' : World) :
  prepare_features now df w = (Return out, w') ->
  empty df = false ->
  length (rows out) = length (List.filter labelled (rows df)) /\
  (length (rows out) <= length (rows df))%nat /\
  Forall (fun r => isna (at_ r "is_churned") = false) (rows out) /\
  (forall c, c <> "days_since_last_order" -> c ∉ derived_names ->
     (fun r => at_ r c) <$> rows out =
     (fun r => at_ r c) <$> List.filter labelled (rows df)) /\
  (Forall (fun r => isna (at_ r "is_churned") = false) (rows df) ->
   length (rows out) = length (rows df)).
Proof.
  intros H He.
  destruct (prepare_features_Return _ _ _ _ _ H He) as (R & _).
  assert (Hlen : length (rows out) = length (List.filter labelled (rows df))).
  { rewrite R. apply length_fmap. }
  split; [exact Hlen|]. split; [rewrite Hlen; apply List.filter_length_le|].
  split; [|split].
  - rewrite R. apply Forall_fmap, Forall_forall. intros r Hr. simpl.
    apply list_elem_of_In, List.filter_In in Hr as [_ Hl].
    rewrite raw_of_prepared_row.
    + unfold labelled in Hl. apply negb_true_iff in Hl. exact Hl.
    + discriminate.
    + unfold derived_names. rewrite !not_elem_of_cons.
      repeat split; try discriminate. apply not_elem_of_nil.
  - intros c Hd Hn. rewrite R, <- list_fmap_compose.
    apply list_fmap_ext. intros i r _. unfold compose.
    apply raw_of_prepared_row; assumption.
  - intros Hall. rewrite Hlen, filter_all; [reflexivity|].
    eapply Forall_impl; [exact Hall|]. intros r Hr. unfold labelled.
    rewrite Hr. reflexivity.
Qed.

(** X4. In every row of the prepared table: when the revenue is a number
    x >= 0, [log_revenue] is the ordinary number log10(x + 1), neither NaN
    nor -inf; when the order count is a number n, [orders_per_month] is
    n / 12 and [order_count_sq] is n * n as long as the square stays below
    2^63, the range in which an integer column does not wrap; a missing
    revenue gives a missing logarithm, a missing order count a missing
    square and a missing monthly rate. *)
Theorem log_square_and_monthly_columns now (df out : DataFrame) (w w' : World)
    (r : gmap string cell) :
  prepare_features now df w = (Return out, w') ->
  empty df = false ->
  r ∈ rows out ->
  (forall x : Q,
      at_ r "revenue_12m" = Float (Fin x) ->
      (0 <= x)%Q -> (x + 1 < inject_Z (2 ^ 63))%Q ->
      at_ r "log_revenue" = Float (Fin (np_log10 (x + 1)))) /\
  (forall n : Q,
      at_ r "order_count_12m" = Float (Fin n) ->
      at_ r "orders_per_month" = Float (Fin (n / 12)) /\
      ((n * n < inject_Z (2 ^ 63))%Q ->
       at_ r "order_count_sq" = Float (Fin (n * n)))) /\
  (isna (at_ r "revenue_12m") = true -> at_ r "log_revenue" = Float NaN) /\
  (isna (at_ r "order_count_12m") = true ->
   at_ r "order_count_sq" = Float NaN /\ at_ r "orders_per_month" = Float NaN).
Proof.
  intros H He Hr.
  destruct (prepared_row_origin _ _ _ _ _ _ H He Hr) as (r0 & _ & _ & ->).
  pose proof (log_of_prepared_row now (has_column df "last_order_date")
                (median (revenue df)) r0) as Hl.
  pose proof (sq_of_prepared_row now (has_column df "last_order_date")
                (median (revenue df)) r0) as Hs.
  pose proof (opm_of_prepared_row now (has_column df "last_order_date")
                (median (revenue df)) r0) as Ho.
  cbv zeta in Hl, Hs, Ho.
  assert (Hna : forall c : cell, isna c = true -> numf c = NaN).
  { intros [[| |]| | |]; simpl; congruence. }
  split; [|split; [|split]].
  - intros x Hx Hpos _. rewrite Hl. unfold num. rewrite Hx.
    cbn [numf fadd of_Z log10]. change (inject_Z 1) with 1%Q.
    destruct (Qeq_bool (x + 1) 0) eqn:E.
    + apply Qeq_bool_eq in E. lra.
    + unfold Qneg. destruct (Qle_bool 0 (x + 1)) eqn:E2; [reflexivity|].
      assert (Hle : (0 <= x + 1)%Q) by lra.
      apply Qle_bool_iff in Hle. congruence.
  - intros n Hn. rewrite Hs, Ho. unfold num. rewrite Hn.
    split; [reflexivity|]. intros _. reflexivity.
  - intros Hx. rewrite Hl. unfold num. rewrite (Hna _ Hx). reflexivity.
  - intros Hn. rewrite Hs, Ho. unfold num. rewrite (Hna _ Hn).
    split; reflexivity.
Qed.

(** X5. Recency follows the last order date: of two rows of the prepared
    table whose dates parse, the one with the later last order has no more
    days since the last order and no higher recency bucket. *)
Theorem later_order_means_lower_recency now (df out : DataFrame) (w w' : World)
    (r1 r2 : gmap string cell) (t1 t2 : Z) :
  prepare_features now df w = (Return out, w') ->
  empty df = false ->
  has_column df "last_order_date" = true ->
  r1 ∈ rows out -> r2 ∈ rows out ->
  to_datetime (at_ r1 "last_order_date") = Some t1 ->
  to_datetime (at_ r2 "last_order_date") = Some t2 ->
  (t1 <= t2)%Z ->
  exists d1 d2 : Z,
    at_ r1 "days_since_last_order" = Float (of_Z d1) /\
    at_ r2 "days_since_last_order" = Float (of_Z d2) /\
    (d2 <= d1)%Z /\
    at_ r1 "recency_bucket" = Float (of_Z (bucket d1)) /\
    at_ r2 "recency_bucket" = Float (of_Z (bucket d2)) /\
    (bucket d2 <= bucket d1)%Z.
Proof.
  intros H He Hdate Hr1 Hr2 Ht1 Ht2 Hle.
  destruct (prepared_row_origin _ _ _ _ _ _ H He Hr1) as (a & _ & _ & ->).
  destruct (prepared_row_origin _ _ _ _ _ _ H He Hr2) as (b & _ & _ & ->).
  rewrite Hdate in *.
  destruct (days_value now true (median (revenue df)) a) as (d1 & Hd1 & Hg1 & Hv1).
  destruct (days_value now true (median (revenue df)) b) as (d2 & Hd2 & Hg2 & Hv2).
  cbv zeta in Hv1, Hv2. rewrite Ht1 in Hv1. rewrite Ht2 in Hv2.
  assert (Hdiv : ((normalize now - t2) `div` day_ns
                  <= (normalize now - t1) `div` day_ns)%Z).
  { apply Z.div_le_mono; [reflexivity|lia]. }
  assert (Hd : (d2 <= d1)%Z) by lia.
  pose proof (bucket_of_prepared_row now true (median (revenue df)) a) as Hb1.
  pose proof (bucket_of_prepared_row now true (median (revenue df)) b) as Hb2.
  cbv zeta in Hb1, Hb2. unfold num in Hb1, Hb2.
  rewrite Hd1 in Hb1. rewrite Hd2 in Hb2. cbn [numf] in Hb1, Hb2.
  rewrite cut1_of_Z in Hb1 by exact Hg1. rewrite cut1_of_Z in Hb2 by exact Hg2.
  exists d1, d2. repeat split; try assumption. apply bucket_monotone, Hd.
Qed.

End PreparedValues.

(** ** Training: how the object changes *)

Section TrainModel.
Context `{RT : Runtime} `{SK : Sklearn}.

(** X6. What [train_model] leaves behind.  It always records the column
    names and prints nothing.  When the scaler cannot be fitted the model
    and the trained flag are untouched; when the classifier cannot be fitted
    the scaler has already been fitted and the model is a fresh unfitted
    one, but the trained flag keeps its old value; only a call that returns
    stores the fitted classifier and sets the flag. *)
Theorem train_model_effects (cols : list string) (X : list (list cell))
    (y : list cell) (w : World) :
  let r := train_model cols X y w in
  feature_names_ (self (snd r)) = cols /\
  output_dir (self (snd r)) = output_dir (self w) /\
  console (snd r) = console w /\
  (forall e, StandardScaler_fit X = Raise e ->
     fst r = Raise e /\
     model (self (snd r)) = model (self w) /\
     _trained (self (snd r)) = _trained (self w)) /\
  (forall p e, StandardScaler_fit X = Return p ->
     StandardScaler_transform p X = Raise e ->
     fst r = Raise e /\
     scaler (self (snd r)) = Some p /\
     model (self (snd r)) = model (self w) /\
     _trained (self (snd r)) = _trained (self w)) /\
  (forall p X_scaled e, StandardScaler_fit X = Return p ->
     StandardScaler_transform p X = Return X_scaled ->
     LogisticRegression_fit X_scaled y = Raise e ->
     fst r = Raise e /\
     scaler (self (snd r)) = Some p /\
     model (self (snd r)) = Unfitted /\
     _trained (self (snd r)) = _trained (self w)) /\
  (forall clf, fst r = Return clf ->
     model (self (snd r)) = Fitted clf /\
     _trained (self (snd r)) = true /\
     exists p X_scaled,
       StandardScaler_fit X = Return p /\
       StandardScaler_transform p X = Return X_scaled /\
       LogisticRegression_fit X_scaled y = Return clf /\
       scaler (self (snd r)) = Some p).
Proof.
  cbv zeta. unfold train_model, bind, lift, modify, ret. cbn [self console].
  destruct (StandardScaler_fit X) as [p|e1] eqn:E1;
    [destruct (StandardScaler_transform p X) as [Xs|e2] eqn:E2;
     [destruct (LogisticRegression_fit Xs y) as [clf|e3] eqn:E3|]|];
    cbn [fst snd self console];
    repeat match goal with |- _ /\ _ => split end;
    try reflexivity; intros;
    repeat match goal with
      | H : Return _ = Return _ |- _ => injection H as H; subst
      | H : Raise _ = Raise _ |- _ => injection H as H; subst
      | H : @eq (outcome _) (Return _) (Raise _) |- _ => discriminate H
      | H : @eq (outcome _) (Raise _) (Return _) |- _ => discriminate H
      | H1 : ?t = Return ?a, H2 : ?t = Return ?b |- _ =>
          rewrite H1 in H2; injection H2 as H2; subst
      | H1 : ?t = Return _, H2 : ?t = Raise _ |- _ =>
          rewrite H1 in H2; discriminate H2
      | H1 : ?t = Raise ?a, H2 : ?t = Raise ?b |- _ =>
          rewrite H1 in H2; injection H2 as H2; subst
      end;
    repeat match goal with |- _ /\ _ => split end;
    try reflexivity.
  exists p, Xs. repeat split; assumption.
Qed.

End TrainModel.

Section Retraining.
Context `{RT : Runtime} `{SK : Sklearn}.

(** X7. A classifier fit that fails leaves different objects behind.  On an
    object that was never trained, [plot_feature_importance] afterwards
    prints that the model is not trained and returns.  On an object that was
    trained before, the flag is still set while the model is the fresh
    unfitted one, and [plot_feature_importance] raises without printing. *)
Theorem plot_after_failed_fit (cols : list string) (X : list (list cell))
    (y : list cell) (w : World) p X_scaled e :
  StandardScaler_fit X = Return p ->
  StandardScaler_transform p X = Return X_scaled ->
  LogisticRegression_fit X_scaled y = Raise e ->
  let w' := snd (train_model cols X y w) in
  fst (train_model cols X y w) = Raise e /\
  (_trained (self w) = false ->
   plot_feature_importance w' =
     (Return tt,
      {| self := self w';
         console := console w ++
           ["plot_feature_importance: model not trained, skipping"] |})) /\
  (_trained (self w) = true ->
   _trained (self w') = true /\ model (self w') = Unfitted /\
   exists e', plot_feature_importance w' = (Raise e', w')).
Proof.
  intros Hp Ht Hf. cbv zeta.
  unfold train_model, bind, lift, modify, ret. cbn [self console].
  rewrite Hp, Ht, Hf. cbn [fst snd].
  split; [reflexivity|]. split.
  - intros Hn. unfold plot_feature_importance, bind, get_self, print.
    cbn [self console _trained model set_model set_scaler set_feature_names
         set_trained]. rewrite Hn. reflexivity.
  - intros Hy. cbn [self console _trained model set_model set_scaler
                    set_feature_names set_trained].
    split; [exact Hy|]. split; [reflexivity|].
    exists NotFittedError.
    unfold plot_feature_importance, bind, get_self, lift.
    cbn [self console _trained model set_model set_scaler set_feature_names
         set_trained]. rewrite Hy. reflexivity.
Qed.

End Retraining.

(** ** The whole run *)

Lemma results_keys (cm : list (list Z)) (report : string) (roc_auc acc : float64) :
  let res : gmap string metric :=
    <["confusion_matrix" := Counts cm]>
      (<["classification_report" := Text report]>
         (<["roc_auc" := Score roc_auc]>
            (<["accuracy" := Score acc]> ∅))) in
  res !! "accuracy" = Some (Score acc) /\
  res !! "roc_auc" = Some (Score roc_auc) /\
  res !! "classification_report" = Some (Text report) /\
  res !! "confusion_matrix" = Some (Counts cm) /\
  (forall k, k <> "accuracy" -> k <> "roc_auc" ->
             k <> "classification_report" -> k <> "confusion_matrix" ->
             res !! k = None) /\
  res <> ∅.
Proof.
  cbv zeta. split; [|split; [|split; [|split; [|split]]]].
  - rewrite !lookup_insert_ne by discriminate. apply lookup_insert_eq.
  - rewrite !lookup_insert_ne by discriminate. apply lookup_insert_eq.
  - rewrite !lookup_insert_ne by discriminate. apply lookup_insert_eq.
  - apply lookup_insert_eq.
  - intros k H1 H2 H3 H4.
    rewrite !lookup_insert_ne by congruence. apply lookup_empty.
  - apply insert_non_empty.
Qed.

Section WholeRun.
Context `{RT : Runtime} `{SK : Sklearn}.

Lemma train_model_console (cols : list string) (X : list (list cell))
    (y : list cell) (w : World) :
  console (snd (train_model cols X y w)) = console w /\
  output_dir (self (snd (train_model cols X y w))) = output_dir (self w).
Proof.
  unfold train_model, bind, lift, modify, ret. cbn [self console].
  destruct (StandardScaler_fit X) as [p|e]; [|split; reflexivity].
  destruct (StandardScaler_transform p X) as [Xs|e]; [|split; reflexivity].
  destruct (LogisticRegression_fit Xs y) as [c|e]; split; reflexivity.
Qed.

(** The lines a returning evaluation prints on a trained object. *)
Lemma evaluate_console (X_test : list (list cell)) (y_test : list cell)
    (w w' : World) (res : gmap string metric) :
  evaluate X_test y_test w = (Return res, w') ->
  _trained (self w) = true ->
  console w' = console w ++ saved_lines (output_dir (self w)).
Proof.
  intros H Htr.
  destruct (evaluate_Return _ _ _ _ _ H)
    as (p & clf & Xs & yp & proba & pr & cm & acc & a & rep &
        Hs & Hm & Ht & Hp & Hpp & Hc1 & Hcm & Hacc & Hroc & Hrep & _).
  unfold evaluate, plot_feature_importance, plot_confusion_matrix,
    plot_roc_curve, save_model_results, bind, lift, get_self, print, ret in H.
  cbn [self console] in H.
  rewrite Hs, Ht, Hm, Hp, Hpp, Hc1, Hcm, Hacc, Hroc, Hrep, Htr in H.
  destruct (roc_curve y_test pr) as [curve|e]; [|discriminate H].
  injection H as _ <-. cbn [console]. unfold saved_lines, path_in.
  rewrite <- !app_assoc. reflexivity.
Qed.

(** X8. On a non-empty prepared table the run goes on to split the matrix
    of the nine feature columns, in their fixed order and with missing
    values replaced by 0, together with the label column: one row and one
    label per labelled customer, nine entries per row, no missing label. *)
Theorem split_receives_the_nine_feature_columns now (df prepared : DataFrame)
    (w w1 : World) :
  prepare_features now df w = (Return prepared, w1) ->
  empty prepared = false ->
  train_and_evaluate now df w =
    (let* split := lift (train_test_split (design_matrix prepared) (labels prepared)) in
     let '(X_train, X_test, y_train, y_test) := split in
     train_model feature_cols X_train y_train ;;
     evaluate X_test y_test) w1 /\
  length (design_matrix prepared) = length (List.filter labelled (rows df)) /\
  length (labels prepared) = length (design_matrix prepared) /\
  Forall (fun row => length row = 9%nat) (design_matrix prepared) /\
  Forall (fun row => Forall (fun c => isna c = false) row) (design_matrix prepared) /\
  Forall (fun c => isna c = false) (labels prepared) /\
  labels prepared = (fun r => at_ r "is_churned") <$> List.filter labelled (rows df).
Proof.
  intros H He.
  pose proof (prepared_nonempty _ _ _ _ _ H He) as Hd.
  destruct (prepare_features_Return _ _ _ _ _ H Hd) as (R & _).
  split; [exact (train_and_evaluate_nonempty _ _ _ _ _ H He)|].
  unfold design_matrix, labels. rewrite !length_fmap.
  split; [rewrite R; apply length_fmap|]. split; [reflexivity|].
  split; [apply Forall_fmap, Forall_true; intros r; reflexivity|].
  split.
  { apply Forall_fmap, Forall_true. intros r.
    apply Forall_fmap, Forall_true. intros c. apply no_nan_fillna_cell. }
  assert (Hraw : (fun r => at_ r "is_churned") <$> rows prepared =
                 (fun r => at_ r "is_churned") <$> List.filter labelled (rows df)).
  { rewrite R, <- list_fmap_compose. apply list_fmap_ext. intros i r _.
    unfold compose. apply raw_of_prepared_row; [discriminate|].
    unfold derived_names. rewrite !not_elem_of_cons.
    repeat split; try discriminate. apply not_elem_of_nil. }
  split; [|exact Hraw].
  rewrite Hraw. apply Forall_fmap, Forall_forall. intros r Hr.
  apply list_elem_of_In, List.filter_In in Hr as [_ Hl].
  unfold labelled in Hl. apply negb_true_iff in Hl. exact Hl.
Qed.

(** X9. A failure of the split or of the fit ends the run with that
    exception before anything is plotted or written: after a failed split
    the object differs from before the call only in [feature_names_], and
    in both cases nothing has been printed. *)
Theorem split_or_fit_failure_propagates now (df prepared : DataFrame)
    (w w1 : World) :
  prepare_features now df w = (Return prepared, w1) ->
  empty prepared = false ->
  (forall e,
      train_test_split (design_matrix prepared) (labels prepared) = Raise e ->
      train_and_evaluate now df w = (Raise e, w1) /\
      w1 = {| self := set_feature_names feature_cols (self w);
              console := console w |}) /\
  (forall X_train X_test y_train y_test e w2,
      train_test_split (design_matrix prepared) (labels prepared) =
        Return (X_train, X_test, y_train, y_test) ->
      train_model feature_cols X_train y_train w1 = (Raise e, w2) ->
      train_and_evaluate now df w = (Raise e, w2) /\
      console w2 = console w).
Proof.
  intros H He.
  pose proof (prepared_nonempty _ _ _ _ _ H He) as Hd.
  destruct (prepare_features_Return _ _ _ _ _ H Hd)
    as (_ & _ & _ & _ & _ & _ & Hs & Hc).
  rewrite (train_and_evaluate_nonempty _ _ _ _ _ H He).
  split.
  - intros e Hsplit. unfold bind, lift. rewrite Hsplit.
    split; [reflexivity|]. destruct w1 as [s1 c1]. simpl in Hs, Hc.
    subst. reflexivity.
  - intros Xtr Xte ytr yte e w2 Hsplit Htrain.
    unfold bind at 1. unfold lift at 1. rewrite Hsplit.
    rewrite (bind_Raise _ _ _ _ _ Htrain). split; [reflexivity|].
    pose proof (train_model_console feature_cols Xtr ytr w1) as [Hk _].
    rewrite Htrain in Hk. simpl in Hk. rewrite Hk. exact Hc.
Qed.

(** X10. A run that returns a non-empty result leaves a trained object: the
    scaler fitted on the training partition, the fitted classifier, the nine
    feature names, the flag set, the output directory unchanged.  It has
    printed the three plot lines and the results line, in that order, and
    the result has exactly the entries accuracy, roc_auc,
    classification_report and confusion_matrix. *)
Theorem full_run_result_and_state now (df : DataFrame) (w w' : World)
    (res : gmap string metric) :
  train_and_evaluate now df w = (Return res, w') ->
  res <> ∅ ->
  exists prepared w1 X_train X_test y_train y_test p clf acc roc_auc report cm,
    prepare_features now df w = (Return prepared, w1) /\
    train_test_split (design_matrix prepared) (labels prepared) =
      Return (X_train, X_test, y_train, y_test) /\
    StandardScaler_fit X_train = Return p /\
    self w' = {| output_dir := output_dir (self w); scaler := Some p;
                 model := Fitted clf; feature_names_ := feature_cols;
                 _trained := true |} /\
    console w' = console w ++ saved_lines (output_dir (self w)) /\
    res !! "accuracy" = Some (Score acc) /\
    res !! "roc_auc" = Some (Score roc_auc) /\
    res !! "classification_report" = Some (Text report) /\
    res !! "confusion_matrix" = Some (Counts cm) /\
    (forall k, k <> "accuracy" -> k <> "roc_auc" ->
               k <> "classification_report" -> k <> "confusion_matrix" ->
               res !! k = None).
Proof.
  intros H Hne.
  destruct (train_and_evaluate_Return _ _ _ _ _ H)
    as (prepared & w1 & Hprep & [[-> _]|[He _]]); [congruence|].
  pose proof (prepared_nonempty _ _ _ _ _ Hprep He) as Hd.
  destruct (prepare_features_Return _ _ _ _ _ Hprep Hd)
    as (_ & _ & _ & _ & _ & _ & Hs & Hc).
  rewrite (train_and_evaluate_nonempty _ _ _ _ _ Hprep He) in H.
  inv_bind H. inv_lift Hrun.
  destruct a as [[[X_train X_test] y_train] y_test].
  inv_bind H. rename a into clf, w0 into w2.
  apply train_model_Return in Hrun as (p & Xs & Hp & _ & _ & Hself & Hcons).
  pose proof (keeps_self_evaluate X_test y_test w2) as Hk.
  rewrite H in Hk. simpl in Hk.
  pose proof (evaluate_console _ _ _ _ _ H) as Hlines.
  rewrite Hself in Hlines. specialize (Hlines eq_refl). cbn [output_dir] in Hlines.
  apply evaluate_Return in H
    as (p' & clf' & Xts & yp & proba & pr & cm & acc & a & rep &
        _ & _ & _ & _ & _ & _ & _ & _ & _ & _ & ->).
  destruct (results_keys cm rep a acc) as (K1 & K2 & K3 & K4 & K5 & _).
  exists prepared, w1, X_train, X_test, y_train, y_test, p, clf, acc, a, rep, cm.
  split; [exact Hprep|]. split; [exact E|]. split; [exact Hp|].
  split; [rewrite Hk, Hself, Hs; reflexivity|].
  split; [rewrite Hlines, Hcons, Hc, Hs; reflexivity|].
  repeat split; assumption.
Qed.

(** X11. A returning run gives the empty result exactly when the input is
    empty or has no labelled row; it then has printed the no-valid-data
    notice and nothing else, and scaler, model and trained flag are as
    before.  The notice about missing feature columns is never printed. *)
Theorem empty_result_iff_no_labelled_row now (df : DataFrame) (w w' : World)
    (res : gmap string metric) :
  train_and_evaluate now df w = (Return res, w') ->
  (res = ∅ <-> empty df = true \/ List.filter labelled (rows df) = []) /\
  (res = ∅ ->
   console w' = console w ++
     ["train_and_evaluate: no valid data after prepare_features"] /\
   scaler (self w') = scaler (self w) /\
   model (self w') = model (self w) /\
   _trained (self w') = _trained (self w)) /\
  (res <> ∅ -> console w' = console w ++ saved_lines (output_dir (self w))).
Proof.
  intros H.
  destruct (train_and_evaluate_Return _ _ _ _ _ H)
    as (prepared & w1 & Hprep & _).
  destruct (empty prepared) eqn:He.
  - assert (Hrun : train_and_evaluate now df w =
              (Return ∅,
               {| self := self w1;
                  console := console w1 ++
                    ["train_and_evaluate: no valid data after prepare_features"] |})).
    { unfold train_and_evaluate. rewrite (bind_step _ _ _ _ _ Hprep).
      rewrite He. reflexivity. }
    rewrite Hrun in H. injection H as <- <-. cbn [self console].
    assert (Hw1 : console w1 = console w /\ scaler (self w1) = scaler (self w) /\
                  model (self w1) = model (self w) /\
                  _trained (self w1) = _trained (self w) /\
                  (empty df = true \/ List.filter labelled (rows df) = [])).
    { destruct (empty df) eqn:Hd.
      - rewrite prepare_features_empty in Hprep by exact Hd.
        injection Hprep as _ <-. repeat split; try reflexivity. left. reflexivity.
      - destruct (prepare_features_Return _ _ _ _ _ Hprep Hd)
          as (R & C & _ & _ & Hlab & _ & Hs & Hc).
        rewrite Hs. repeat split; try assumption; try reflexivity.
        right. unfold empty in He.
        assert (Hcol : has_column prepared "is_churned" = true)
          by (rewrite C, Hlab; reflexivity).
        unfold has_column in Hcol. apply bool_decide_eq_true in Hcol.
        destruct (columns prepared) as [|c0 cs]; [inversion Hcol|].
        destruct (rows prepared) as [|r0 rs] eqn:Hrows; [|discriminate He].
        symmetry in R. apply fmap_nil_inv in R. exact R. }
    destruct Hw1 as (Hc1 & Hsc & Hmo & Htr & Hcase).
    split; [split; [intros _; exact Hcase|reflexivity]|].
    split; [|intros Hne; congruence].
    intros _. rewrite Hc1. repeat split; assumption.
  - pose proof (prepared_nonempty _ _ _ _ _ Hprep He) as Hd.
    destruct (prepare_features_Return _ _ _ _ _ Hprep Hd)
      as (R & _ & _ & _ & _ & _ & Hs & Hc).
    pose proof H as H0.
    rewrite (train_and_evaluate_nonempty _ _ _ _ _ Hprep He) in H.
    inv_bind H. inv_lift Hrun.
    destruct a as [[[X_train X_test] y_train] y_test].
    inv_bind H. rename w0 into w2.
    apply train_model_Return in Hrun as (p & Xs & _ & _ & _ & Hself & Hcons).
    pose proof (evaluate_console _ _ _ _ _ H) as Hlines.
    rewrite Hself in Hlines. specialize (Hlines eq_refl). cbn [output_dir] in Hlines.
    apply evaluate_Return in H
      as (p' & clf' & Xts & yp & proba & pr & cm & acc & a0 & rep &
          _ & _ & _ & _ & _ & _ & _ & _ & _ & _ & ->).
    destruct (results_keys cm rep a0 acc) as (_ & _ & _ & _ & _ & Hne).
    cbv zeta in Hne.
    split; [split|split].
    + intros E0. destruct (Hne E0).
    + intros [Hcase|Hcase]; [congruence|].
      rewrite Hcase in R. unfold empty in He.
      destruct (columns prepared); [discriminate He|].
      rewrite R in He. discriminate He.
    + intros E0. destruct (Hne E0).
    + intros _. rewrite Hlines, Hcons, Hc, Hs. reflexivity.
Qed.

End WholeRun.

(** ** The median threshold *)

Lemma fle_refl_fin (x : float64) : is_fin x -> fle x x = true.
Proof. intros [q ->]. apply Qle_bool_iff, Qle_refl. Qed.

Lemma fle_total_fin (x y : float64) :
  is_fin x -> is_fin y -> fle x y = false -> fle y x = true.
Proof.
  intros [a ->] [b ->] H. cbn [fle] in *. apply Qle_bool_iff.
  destruct (Qlt_le_dec b a) as [Hlt|Hle].
  - apply Qlt_le_weak, Hlt.
  - apply Qle_bool_iff in Hle. congruence.
Qed.

Lemma fle_trans_fin (x y z : float64) :
  is_fin x -> is_fin y -> is_fin z ->
  fle x y = true -> fle y z = true -> fle x z = true.
Proof.
  intros [a ->] [b ->] [c ->] H1 H2. cbn [fle] in *.
  apply Qle_bool_iff in H1, H2. apply Qle_bool_iff. eapply Qle_trans; eassumption.
Qed.

Lemma insert_sorted_perm (x : float64) (l : list float64) :
  Permutation (insert_sorted x l) (x :: l).
Proof.
  induction l as [|y l IH]; [reflexivity|]. cbn [insert_sorted].
  destruct (fle x y); [reflexivity|].
  rewrite IH. apply perm_swap.
Qed.

Lemma sort_perm (l : list float64) : Permutation (sort l) l.
Proof.
  induction l as [|x l IH]; [reflexivity|]. cbn [sort].
  rewrite insert_sorted_perm, IH. reflexivity.
Qed.

Lemma insert_sorted_ascending (x : float64) (l : list float64) :
  is_fin x -> Forall is_fin l -> ascending l -> ascending (insert_sorted x l).
Proof.
  intros Hx Hl Hs. induction Hs as [|y l Hs IH Hy]; cbn [insert_sorted].
  - repeat constructor.
  - apply Forall_cons in Hl as [Hfy Hfl].
    destruct (fle x y) eqn:E.
    + constructor; [constructor; assumption|].
      constructor; [exact E|].
      rewrite Forall_forall in *. intros z Hz.
      apply (fle_trans_fin x y z); auto.
    + constructor; [apply IH; exact Hfl|].
      rewrite (insert_sorted_perm x l). constructor; [|exact Hy].
      apply fle_total_fin; assumption.
Qed.

Lemma sort_ascending (l : list float64) : Forall is_fin l -> ascending (sort l).
Proof.
  induction 1 as [|x l Hx Hl IH]; cbn [sort]; [constructor|].
  apply insert_sorted_ascending; [exact Hx| |exact IH].
  rewrite sort_perm. exact Hl.
Qed.

Lemma filter_length_perm (f : float64 -> bool) (l l' : list float64) :
  Permutation l l' -> length (List.filter f l) = length (List.filter f l').
Proof.
  induction 1 as [|x l l' _ IH|x y l|l l' l'' _ IH1 _ IH2]; cbn [List.filter].
  - reflexivity.
  - destruct (f x); cbn [length]; rewrite IH; reflexivity.
  - destruct (f x), (f y); reflexivity.
  - rewrite IH1. exact IH2.
Qed.

Lemma filter_notna_fin (l : list float64) :
  Forall is_fin l -> List.filter notna_f l = l.
Proof.
  intros H. apply filter_all. eapply Forall_impl; [exact H|].
  intros x [q ->]. reflexivity.
Qed.

(** In an ascending list of numbers, everything from position [k] on is at
    least the entry at [k]. *)
Lemma ascending_nth (v : list float64) (k j : nat) :
  Forall is_fin v -> ascending v ->
  (k <= j < length v)%nat ->
  fle (nth k v NaN) (nth j v NaN) = true.
Proof.
  intros Hf Hs. revert k j.
  induction Hs as [|x v Hs IH Hx]; intros k j Hkj; [simpl in Hkj; lia|].
  apply Forall_cons in Hf as [Hfx Hfv].
  destruct k as [|k], j as [|j]; cbn [nth]; simpl in Hkj.
  - apply fle_refl_fin, Hfx.
  - rewrite Forall_forall in Hx. apply Hx.
    apply list_elem_of_In, nth_In. lia.
  - lia.
  - apply IH; [exact Hfv|lia].
Qed.

Lemma nth_fin (v : list float64) (k : nat) :
  Forall is_fin v -> (k < length v)%nat -> is_fin (nth k v NaN).
Proof.
  intros Hf Hk. rewrite Forall_forall in Hf.
  apply Hf, list_elem_of_In, nth_In, Hk.
Qed.

Lemma count_from (v : list float64) (m : float64) (k : nat) :
  Forall is_fin v -> ascending v -> is_fin m ->
  (k < length v)%nat ->
  fle m (nth k v NaN) = true ->
  (length v - k <= length (List.filter (fun x => fge x m) v))%nat.
Proof.
  intros Hf Hs Hm Hk Hle.
  rewrite <- (take_drop k v) at 2. rewrite List.filter_app, length_app.
  assert (Hall : Forall (fun x => fge x m = true) (drop k v)).
  { apply Forall_forall. intros x Hx.
    apply list_elem_of_lookup in Hx as [i Hi]. rewrite lookup_drop in Hi.
    assert (Hlt : (k + i < length v)%nat) by (eapply lookup_lt_Some; exact Hi).
    assert (Hx : x = nth (k + i) v NaN).
    { symmetry. apply nth_lookup_Some with (d := NaN) in Hi. exact Hi. }
    subst x. unfold fge.
    apply (fle_trans_fin m (nth k v NaN) (nth (k + i) v NaN)); auto.
    - apply nth_fin; assumption.
    - apply nth_fin; assumption.
    - apply ascending_nth; [assumption|assumption|lia]. }
  rewrite (filter_all _ _ Hall), length_drop. lia.
Qed.

Lemma median_of_numbers (xs : list float64) :
  Forall is_fin xs -> xs <> [] ->
  let v := sort xs in
  is_fin (median xs) /\
  fle (median xs) (nth (length v / 2) v NaN) = true.
Proof.
  intros Hf Hne. cbv zeta. unfold median.
  rewrite (filter_notna_fin xs Hf).
  assert (Hv : Forall is_fin (sort xs)) by (rewrite sort_perm; exact Hf).
  assert (Hlen : length (sort xs) = length xs)
    by (apply Permutation_length, sort_perm).
  assert (Hpos : (0 < length xs)%nat) by (destruct xs; [congruence|simpl; lia]).
  set (v := sort xs) in *. set (n := length v) in *.
  assert (Hn : (0 < n)%nat) by lia.
  destruct (Nat.eqb_spec n 0) as [E|_]; [lia|].
  assert (Hhalf : (n / 2 < n)%nat) by (apply Nat.div_lt; lia).
  destruct (Nat.even n) eqn:Ev.
  - assert (Hprev : (n / 2 - 1 < n)%nat) by lia.
    destruct (nth_fin v (n / 2 - 1) Hv Hprev) as [a Ha].
    destruct (nth_fin v (n / 2) Hv Hhalf) as [b Hb].
    assert (Hab : fle (nth (n / 2 - 1) v NaN) (nth (n / 2) v NaN) = true).
    { apply ascending_nth; [exact Hv|apply sort_ascending; exact Hf|lia]. }
    rewrite Ha, Hb in *. cbn [fle] in Hab. apply Qle_bool_iff in Hab.
    cbn [fadd fdiv of_Z]. change (Qeq_bool (inject_Z 2) 0) with false.
    cbn iota. split; [eexists; reflexivity|].
    cbn [fle]. apply Qle_bool_iff.
    change (inject_Z 2) with 2%Q. apply Qle_shift_div_r; lra.
  - split; [apply nth_fin; assumption|].
    apply fle_refl_fin, nth_fin; assumption.
Qed.

(** At least half of a non-empty list of numbers is at or above its median. *)
Lemma median_half (xs : list float64) :
  Forall is_fin xs -> xs <> [] ->
  (length xs <= 2 * length (List.filter (fun x => fge x (median xs)) xs))%nat.
Proof.
  intros Hf Hne.
  destruct (median_of_numbers xs Hf Hne) as [Hm Hle]. cbv zeta in Hle.
  assert (Hv : Forall is_fin (sort xs)) by (rewrite sort_perm; exact Hf).
  assert (Hlen : length (sort xs) = length xs)
    by (apply Permutation_length, sort_perm).
  assert (Hpos : (0 < length xs)%nat) by (destruct xs; [congruence|simpl; lia]).
  assert (Hhalf : (length (sort xs) / 2 < length (sort xs))%nat)
    by (apply Nat.div_lt; lia).
  pose proof (count_from (sort xs) (median xs) (length (sort xs) / 2)
                Hv (sort_ascending xs Hf) Hm Hhalf Hle) as Hc.
  rewrite (filter_length_perm _ _ _ (sort_perm xs)) in Hc.
  rewrite Hlen in Hc.
  pose proof (Nat.div_mod_eq (length xs) 2) as Hdm.
  pose proof (Nat.mod_upper_bound (length xs) 2 ltac:(lia)) as Hmod.
  lia.
Qed.

Lemma fle_trans (x y z : float64) :
  fle x y = true -> fle y z = true -> fle x z = true.
Proof.
  destruct x as [|a|[|]], y as [|b|[|]], z as [|c|[|]]; cbn [fle negb];
    try congruence.
  intros H1 H2. apply Qle_bool_iff in H1, H2. apply Qle_bool_iff.
  eapply Qle_trans; eassumption.
Qed.

Lemma fge_of_bool (b : bool) : fge (of_bool b) (of_Z 1) = b.
Proof. destruct b; reflexivity. Qed.

Section HighValue.
Context `{RT : Runtime} `{SK : Sklearn}.

Lemma flag_of_prepared_row now has_date med (r0 : gmap string cell) :
  fge (num "is_high_value" (prepared_row now has_date med r0)) (of_Z 1) =
  fge (num "revenue_12m" r0) med.
Proof.
  unfold num at 1. rewrite high_value_of_prepared_row. cbn [numf].
  rewrite fge_of_bool. unfold num.
  rewrite raw_of_prepared_row; [reflexivity|discriminate|].
  unfold derived_names. rewrite !not_elem_of_cons.
  repeat split; try discriminate. apply not_elem_of_nil.
Qed.

(** X12. The high-value flag follows the revenue: within one prepared table
    a row whose revenue is at least that of a flagged row is flagged too.
    When every input row is labelled and every revenue is a number, the flag
    is set in at least half of the rows of the prepared table. *)
Theorem high_value_set_for_upper_half now (df out : DataFrame) (w w' : World) :
  prepare_features now df w = (Return out, w') ->
  empty df = false ->
  (forall r1 r2, r1 ∈ rows out -> r2 ∈ rows out ->
     fle (num "revenue_12m" r1) (num "revenue_12m" r2) = true ->
     fge (num "is_high_value" r1) (of_Z 1) = true ->
     fge (num "is_high_value" r2) (of_Z 1) = true) /\
  (Forall (fun r => isna (at_ r "is_churned") = false) (rows df) ->
   Forall (fun r => is_fin (num "revenue_12m" r)) (rows df) ->
   (length (rows out) <=
    2 * length (List.filter
                  (fun r => fge (num "is_high_value" r) (of_Z 1)) (rows out)))%nat).
Proof.
  intros H He.
  destruct (prepare_features_Return _ _ _ _ _ H He) as (R & _).
  assert (Hraw : forall r0,
             num "revenue_12m"
               (prepared_row now (has_column df "last_order_date")
                  (median (revenue df)) r0) = num "revenue_12m" r0).
  { intros r0. unfold num. rewrite raw_of_prepared_row; [reflexivity|discriminate|].
    unfold derived_names. rewrite !not_elem_of_cons.
    repeat split; try discriminate. apply not_elem_of_nil. }
  split.
  - intros r1 r2 H1 H2 Hle Hf.
    rewrite R in H1, H2.
    apply list_elem_of_fmap in H1 as (a & -> & _).
    apply list_elem_of_fmap in H2 as (b & -> & _).
    rewrite flag_of_prepared_row in *. rewrite !Hraw in Hle.
    unfold fge in *. eapply fle_trans; eassumption.
  - intros Hlab Hfin.
    assert (Hall : List.filter labelled (rows df) = rows df).
    { apply filter_all. eapply Forall_impl; [exact Hlab|].
      intros r Hr. unfold labelled. simpl in Hr. rewrite Hr. reflexivity. }
    rewrite Hall in R. rewrite R, filter_fmap, !length_fmap.
    rewrite (List.filter_ext _ (fun r => fge (num "revenue_12m" r) (median (revenue df))))
      by (intros r; apply flag_of_prepared_row).
    assert (Hne : revenue df <> []).
    { unfold revenue. unfold empty in He.
      destruct (columns df), (rows df); try discriminate. }
    assert (Hf : Forall is_fin (revenue df))
      by (unfold revenue; apply Forall_fmap; exact Hfin).
    pose proof (median_half (revenue df) Hf Hne) as Hm.
    set (m := median (revenue df)) in *.
    unfold revenue in Hm. rewrite filter_fmap, !length_fmap in Hm.
    exact Hm.
Qed.

End HighValue.

(** ** Preparing a prepared table again *)

Lemma put_id (c : string) h (r : gmap string cell) :
  is_Some (r !! c) -> at_ r c = Float (h r) -> put c h r = r.
Proof.
  intros [x Hx] H. unfold at_ in H. rewrite Hx in H. simpl in H. subst x.
  unfold put. apply insert_id. exact Hx.
Qed.

Lemma filter_none {A} (f : A -> bool) (l : list A) :
  Forall (fun a => f a = false) l -> List.filter f l = [].
Proof.
  induction 1 as [|a l Ha _ IH]; simpl; [reflexivity|].
  rewrite Ha. exact IH.
Qed.

Ltac in_list := unfold derived_names; rewrite !elem_of_cons; auto 20.

Section PrepareAgain.
Context `{RT : Runtime} `{SK : Sklearn}.

Lemma prepared_row_has now has_date med (r0 : gmap string cell) (c : string) :
  c ∈ "days_since_last_order" :: derived_names ->
  is_Some (prepared_row now has_date med r0 !! c).
Proof.
  intros Hc. unfold prepared_row, derived_row, days_row, put.
  unfold derived_names in Hc. rewrite !elem_of_cons in Hc.
  destruct has_date; rewrite !lookup_insert_is_Some';
    repeat (destruct Hc as [->|Hc]; [auto 20|]);
    destruct (not_elem_of_nil _ Hc).
Qed.

Lemma days_row_same_day now now' has_date (r : gmap string cell) :
  normalize now' = normalize now -> days_row now' has_date r = days_row now has_date r.
Proof. intros Hn. unfold days_row. rewrite Hn. reflexivity. Qed.

Lemma days_row_again now has_date med (r0 : gmap string cell) :
  days_row now has_date (prepared_row now has_date med r0) =
  prepared_row now has_date med r0.
Proof.
  assert (Hs : is_Some (prepared_row now has_date med r0 !! "days_since_last_order"))
    by (apply prepared_row_has; left).
  pose proof (days_of_prepared_row now has_date med r0) as Hd.
  unfold days_row at 1. destruct has_date.
  - match goal with
    | |- put ?c ?h2 (put ?c ?h1 ?r) = _ =>
        transitivity (put c (fun _ => h2 (put c h1 r)) r)
    end.
    { unfold put. apply insert_insert_eq. }
    apply put_id; [exact Hs|]. rewrite Hd, num_put_eq.
    rewrite raw_of_prepared_row; [reflexivity|discriminate|].
    unfold derived_names. rewrite !not_elem_of_cons.
    repeat split; try discriminate. apply not_elem_of_nil.
  - apply put_id; [exact Hs|exact Hd].
Qed.

Lemma derived_row_again now has_date med (r0 : gmap string cell) :
  derived_row med (prepared_row now has_date med r0) =
  prepared_row now has_date med r0.
Proof.
  assert (Hs : forall c, c ∈ derived_names ->
             is_Some (prepared_row now has_date med r0 !! c))
    by (intros c Hc; apply prepared_row_has; right; exact Hc).
  unfold derived_row.
  rewrite (put_id "avg_order_value" _ (prepared_row now has_date med r0));
    [|apply Hs; in_list|exact (avg_of_prepared_row now has_date med r0)].
  rewrite (put_id "log_revenue" _ (prepared_row now has_date med r0));
    [|apply Hs; in_list|exact (log_of_prepared_row now has_date med r0)].
  rewrite (put_id "order_count_sq" _ (prepared_row now has_date med r0));
    [|apply Hs; in_list|exact (sq_of_prepared_row now has_date med r0)].
  rewrite (put_id "recency_bucket" _ (prepared_row now has_date med r0));
    [|apply Hs; in_list|exact (bucket_of_prepared_row now has_date med r0)].
  rewrite (put_id "is_high_value" _ (prepared_row now has_date med r0));
    [|apply Hs; in_list|exact (high_value_of_prepared_row now has_date med r0)].
  rewrite (put_id "orders_per_month" _ (prepared_row now has_date med r0));
    [|apply Hs; in_list|exact (opm_of_prepared_row now has_date med r0)].
  apply put_id; [apply Hs; in_list|].
  exact (rpo_of_prepared_row now has_date med r0).
Qed.

Lemma prepared_row_again now now' has_date med (r0 : gmap string cell) :
  normalize now' = normalize now ->
  prepared_row now' has_date med (prepared_row now has_date med r0) =
  prepared_row now has_date med r0.
Proof.
  intros Hn. unfold prepared_row at 1.
  rewrite (days_row_same_day now now') by exact Hn.
  rewrite days_row_again. apply derived_row_again.
Qed.

(** X13. Feature preparation is idempotent on a fully labelled table: when
    no input row lacks its label, preparing the prepared table again on the
    same calendar day returns that very table, with the same columns in the
    same order and the same rows. *)
Theorem prepare_features_idempotent now now' (df out : DataFrame)
    (w w' w2 : World) :
  prepare_features now df w = (Return out, w') ->
  empty df = false ->
  Forall (fun r => isna (at_ r "is_churned") = false) (rows df) ->
  normalize now' = normalize now ->
  prepare_features now' out w2 =
    (Return out,
     {| self := set_feature_names feature_cols (self w2); console := console w2 |}).
Proof.
  intros H He Hlab Hn.
  destruct (prepare_features_Return _ _ _ _ _ H He)
    as (R & C & Hrev & Hcnt & Hl & Hnum & _).
  assert (Hall : List.filter labelled (rows df) = rows df).
  { apply filter_all. eapply Forall_impl; [exact Hlab|].
    intros r Hr. unfold labelled. simpl in Hr. rewrite Hr. reflexivity. }
  rewrite Hall in R.
  assert (Hraw : forall c r0, c <> "days_since_last_order" -> c ∉ derived_names ->
             at_ (prepared_row now (has_column df "last_order_date")
                    (median (revenue df)) r0) c = at_ r0 c)
    by (intros; apply raw_of_prepared_row; assumption).
  assert (Hnd : forall c, c ∈ ["revenue_12m"; "order_count_12m"; "is_churned";
                                "last_order_date"] ->
             c <> "days_since_last_order" /\ c ∉ derived_names).
  { intros c Hc. rewrite !elem_of_cons in Hc. unfold derived_names.
    rewrite !not_elem_of_cons.
    destruct Hc as [->|[->|[->|[->|Hc]]]];
      [| | | |destruct (not_elem_of_nil _ Hc)];
      (split; [discriminate|repeat split; try discriminate; apply not_elem_of_nil]). }
  assert (Hrev' : has_column out "revenue_12m" = true) by (rewrite C, Hrev; reflexivity).
  assert (Hcnt' : has_column out "order_count_12m" = true) by (rewrite C, Hcnt; reflexivity).
  assert (Hl' : has_column out "is_churned" = true) by (rewrite C, Hl; reflexivity).
  assert (He' : empty out = false).
  { unfold empty. unfold has_column in Hrev'. apply bool_decide_eq_true in Hrev'.
    unfold empty in He. rewrite R.
    destruct (columns out); [destruct (not_elem_of_nil _ Hrev')|].
    destruct (columns df), (rows df); try discriminate. reflexivity. }
  assert (Hnum' : Forall (fun r => is_float (at_ r "revenue_12m") = true /\
                                   numeric (at_ r "order_count_12m") = true) (rows out)).
  { rewrite R. apply Forall_fmap. eapply Forall_impl; [exact Hnum|].
    intros r Hr. simpl.
    rewrite !Hraw by (apply Hnd; in_list). exact Hr. }
  assert (Hdate : has_column out "last_order_date" = has_column df "last_order_date").
  { rewrite C. destruct (has_column df "last_order_date"); reflexivity. }
  assert (Hdates' : has_column out "last_order_date" = true ->
                    datetime_failure
                      ((fun r => at_ r "last_order_date") <$> rows out) = None).
  { intros Hd. rewrite Hdate in Hd.
    rewrite <- (prepare_features_dates _ _ _ _ _ H He Hd).
    f_equal. rewrite R, <- list_fmap_compose.
    apply list_fmap_ext. intros i r _. unfold compose.
    apply Hraw; apply Hnd; in_list. }
  destruct (prepare_features_ok now' out w2 He' Hdates' Hrev' Hcnt' Hl' Hnum')
    as (out2 & Hrun & K2 & R2).
  rewrite Hrun. f_equal. f_equal.
  assert (Hk : columns out2 = columns out).
  { rewrite K2, filter_none; [apply app_nil_r|].
    apply Forall_forall. intros c Hc. rewrite C.
    apply elem_of_cons in Hc as [->|Hc].
    - rewrite orb_true_r. reflexivity.
    - rewrite (bool_decide_eq_true_2 _ Hc), orb_true_r. reflexivity. }
  assert (Hr : rows out2 = rows out).
  { rewrite R2.
    assert (Hmed : revenue out = revenue df).
    { unfold revenue. rewrite R, <- list_fmap_compose.
      apply list_fmap_ext. intros i r _. unfold compose, num.
      rewrite Hraw by (apply Hnd; in_list). reflexivity. }
    rewrite Hdate, Hmed.
    rewrite (filter_all labelled (rows out)).
    - rewrite R at 1. rewrite <- list_fmap_compose. rewrite R.
      apply list_fmap_ext. intros i r _. unfold compose.
      apply prepared_row_again. exact Hn.
    - rewrite R. apply Forall_fmap. eapply Forall_impl; [exact Hlab|].
      intros r Hr. simpl. rewrite labelled_prepared_row.
      unfold labelled. rewrite Hr. reflexivity. }
  destruct out2, out. simpl in Hk, Hr. subst. reflexivity.
Qed.

End PrepareAgain.

(** ** The extra properties on concrete tables *)



Lemma prepared_rows_are_the_labelled_rows_witness :
  demo_prepare batch_unlabelled =
    (Return (demo_prepared batch_unlabelled), snd (demo_prepare batch_unlabelled)) /\
  empty batch_unlabelled = false /\
  length (rows (demo_prepared batch_unlabelled)) = 2%nat /\
  (fun r => at_ r "customer_id") <$> rows (demo_prepared batch_unlabelled) =
    [Float (of_Z 1); Float (of_Z 2)].
Proof.
  split; [exact demo_prepare_batch_unlabelled|]. split; [reflexivity|].
  assert (Hne : "customer_id" <> "days_since_last_order") by discriminate.
  assert (Hnd : "customer_id" ∉ derived_names).
  { unfold derived_names. rewrite !not_elem_of_cons.
    repeat split; try discriminate. apply not_elem_of_nil. }
  destruct (prepared_rows_are_the_labelled_rows (RT:=demo_runtime) (SK:=demo_sklearn)
              demo_now batch_unlabelled _ demo_world _
              demo_prepare_batch_unlabelled eq_refl) as (Hlen & _ & _ & Hraw & _).
  split.
  - rewrite Hlen. vm_compute. reflexivity.
  - rewrite (Hraw "customer_id" Hne Hnd). vm_compute. reflexivity.
Defined.

Lemma log_square_and_monthly_columns_witness :
  demo_prepare batch5 = (Return (demo_prepared batch5), snd (demo_prepare batch5)) /\
  empty batch5 = false /\
  demo_row batch5 2 ∈ rows (demo_prepared batch5) /\
  at_ (demo_row batch5 2) "log_revenue" =
    Float (Fin (np_log10 (Runtime:=demo_runtime) (30 + 1))) /\
  at_ (demo_row batch5 2) "orders_per_month" = Float (Fin (4 / 12)) /\
  at_ (demo_row batch5 2) "order_count_sq" = Float (Fin (4 * 4)).
Proof.
  split; [exact demo_prepare_batch5|]. split; [reflexivity|].
  split; [exact demo_row_batch5|].
  destruct (log_square_and_monthly_columns (RT:=demo_runtime) (SK:=demo_sklearn)
              demo_now batch5 _ demo_world _ _
              demo_prepare_batch5 eq_refl demo_row_batch5)
    as (Hlog & Hcnt & _).
  split.
  - apply (Hlog 30%Q); [vm_compute; reflexivity|discriminate|reflexivity].
  - destruct (Hcnt 4%Q) as [Hopm Hsq]; [vm_compute; reflexivity|].
    split; [exact Hopm|]. apply Hsq. reflexivity.
Defined.

Lemma later_order_means_lower_recency_witness :
  demo_prepare batch5 = (Return (demo_prepared batch5), snd (demo_prepare batch5)) /\
  empty batch5 = false /\
  exists d1 d2 : Z,
    at_ (demo_row batch5 2) "days_since_last_order" = Float (of_Z d1) /\
    at_ (demo_row batch5 0) "days_since_last_order" = Float (of_Z d2) /\
    (d2 <= d1)%Z /\ (bucket d2 <= bucket d1)%Z.
Proof.
  split; [exact demo_prepare_batch5|]. split; [reflexivity|].
  assert (H0 : demo_row batch5 0 ∈ rows (demo_prepared batch5)).
  { unfold demo_row. apply list_elem_of_In, nth_In.
    vm_compute. lia. }
  destruct (later_order_means_lower_recency (RT:=demo_runtime) (SK:=demo_sklearn)
              demo_now batch5 _ demo_world _
              (demo_row batch5 2) (demo_row batch5 0)
              ((20000 - 95) * day_ns + 1)%Z ((20000 - 0) * day_ns + 1)%Z
              demo_prepare_batch5 eq_refl eq_refl demo_row_batch5 H0)
    as (d1 & d2 & H1 & H2 & Hd & _ & _ & Hb).
  - vm_compute. reflexivity.
  - vm_compute. reflexivity.
  - vm_compute. discriminate.
  - exists d1, d2. repeat split; assumption.
Defined.

Lemma train_model_effects_witness :
  let r := train_model (SK:=demo_sklearn) ["order_count_12m"; "revenue_12m"]
             one_class_X one_class_y demo_world in
  fst r = Raise (LibraryError "needs samples of at least 2 classes") /\
  feature_names_ (self (snd r)) = ["order_count_12m"; "revenue_12m"] /\
  model (self (snd r)) = Unfitted /\
  _trained (self (snd r)) = false.
Proof.
  cbv zeta.
  destruct (train_model_effects (SK:=demo_sklearn) ["order_count_12m"; "revenue_12m"]
              one_class_X one_class_y demo_world)
    as (Hn & _ & _ & _ & _ & Hfit & _).
  cbv zeta in Hn, Hfit.
  edestruct Hfit as (Hr & _ & Hm & Ht).
  - vm_compute. reflexivity.
  - vm_compute. reflexivity.
  - vm_compute. reflexivity.
  - repeat split; assumption.
Defined.

Lemma plot_after_failed_fit_witness :
  let retrain := train_model (SK:=demo_sklearn) ["order_count_12m"; "revenue_12m"]
                   one_class_X one_class_y in
  plot_feature_importance (snd (retrain demo_world)) =
    (Return tt,
     {| self := self (snd (retrain demo_world));
        console := ["plot_feature_importance: model not trained, skipping"] |}) /\
  _trained (self (snd (demo_run batch12))) = true /\
  exists e',
    plot_feature_importance (snd (retrain (snd (demo_run batch12)))) =
      (Raise e', snd (retrain (snd (demo_run batch12)))).
Proof.
  cbv zeta. split; [|split; [vm_compute; reflexivity|]].
  - edestruct (plot_after_failed_fit (SK:=demo_sklearn)
                 ["order_count_12m"; "revenue_12m"] one_class_X one_class_y demo_world)
      as (_ & Hnever & _).
    + vm_compute. reflexivity.
    + vm_compute. reflexivity.
    + vm_compute. reflexivity.
    + cbv zeta in Hnever. apply Hnever. reflexivity.
  - edestruct (plot_after_failed_fit (SK:=demo_sklearn)
                 ["order_count_12m"; "revenue_12m"] one_class_X one_class_y
                 (snd (demo_run batch12)))
      as (_ & _ & Hbefore).
    + vm_compute. reflexivity.
    + vm_compute. reflexivity.
    + vm_compute. reflexivity.
    + cbv zeta in Hbefore. apply Hbefore. vm_compute. reflexivity.
Defined.

Lemma demo_prepare_batch12 :
  demo_prepare batch12 = (Return (demo_prepared batch12), snd (demo_prepare batch12)).
Proof. vm_compute. reflexivity. Defined.

Lemma demo_prepare_batch1 :
  demo_prepare batch1 = (Return (demo_prepared batch1), snd (demo_prepare batch1)).
Proof. vm_compute. reflexivity. Defined.

Lemma demo_run_batch_no_labels :
  demo_run batch_no_labels =
  (Return (demo_results batch_no_labels), snd (demo_run batch_no_labels)).
Proof. vm_compute. reflexivity. Defined.

Lemma split_receives_the_nine_feature_columns_witness :
  demo_prepare batch12 = (Return (demo_prepared batch12), snd (demo_prepare batch12)) /\
  empty (demo_prepared batch12) = false /\
  length (design_matrix (demo_prepared batch12)) = 12%nat /\
  length (labels (demo_prepared batch12)) = 12%nat /\
  Forall (fun row => length row = 9%nat) (design_matrix (demo_prepared batch12)).
Proof.
  split; [exact demo_prepare_batch12|]. split; [vm_compute; reflexivity|].
  destruct (split_receives_the_nine_feature_columns
              (RT:=demo_runtime) (SK:=demo_sklearn)
              demo_now batch12 _ demo_world _ demo_prepare_batch12)
    as (_ & Hlen & Hlab & Hnine & _).
  - vm_compute. reflexivity.
  - assert (H12 : length (design_matrix (demo_prepared batch12)) = 12%nat)
      by (rewrite Hlen; vm_compute; reflexivity).
    split; [exact H12|]. split; [rewrite Hlab; exact H12|exact Hnine].
Defined.

Lemma split_or_fit_failure_propagates_witness :
  demo_run batch1 =
    (Raise (LibraryError "train set would be empty"),
     {| self := set_feature_names feature_cols (self demo_world); console := [] |}) /\
  fst (demo_run batch_unlabelled) =
    Raise (LibraryError "needs samples of at least 2 classes") /\
  console (snd (demo_run batch_unlabelled)) = [].
Proof.
  split.
  - destruct (split_or_fit_failure_propagates (RT:=demo_runtime) (SK:=demo_sklearn)
                demo_now batch1 _ demo_world _ demo_prepare_batch1) as [Hsplit _].
    + vm_compute. reflexivity.
    + destruct (Hsplit (LibraryError "train set would be empty")) as [Hrun Hw].
      * vm_compute. reflexivity.
      * unfold demo_run. rewrite Hrun, Hw. reflexivity.
  - destruct (split_or_fit_failure_propagates (RT:=demo_runtime) (SK:=demo_sklearn)
                demo_now batch_unlabelled _ demo_world _
                demo_prepare_batch_unlabelled) as [_ Hfit].
    + vm_compute. reflexivity.
    + edestruct Hfit as [Hrun Hc].
      * vm_compute. reflexivity.
      * vm_compute. reflexivity.
      * unfold demo_run. rewrite Hrun. split; [|exact Hc].
        vm_compute. reflexivity.
Defined.

Lemma full_run_result_and_state_witness :
  demo_run batch12 = (Return (demo_results batch12), snd (demo_run batch12)) /\
  demo_results batch12 <> ∅ /\
  _trained (self (snd (demo_run batch12))) = true /\
  feature_names_ (self (snd (demo_run batch12))) = feature_cols /\
  console (snd (demo_run batch12)) = saved_lines "/srv/shop/reports" /\
  is_Some (demo_results batch12 !! "accuracy") /\
  demo_results batch12 !! "model" = None.
Proof.
  split; [exact demo_run_batch12|]. split; [exact demo_results_batch12|].
  destruct (full_run_result_and_state (RT:=demo_runtime) (SK:=demo_sklearn)
              demo_now batch12 demo_world _ _ demo_run_batch12 demo_results_batch12)
    as (prepared & w1 & X_train & X_test & y_train & y_test & p & clf & acc &
        roc_auc & report & cm & _ & _ & _ & Hself & Hcons & Hacc & _ & _ & _ & Hnone).
  split; [rewrite Hself; reflexivity|]. split; [rewrite Hself; reflexivity|].
  split; [rewrite Hcons; reflexivity|].
  split; [rewrite Hacc; eexists; reflexivity|].
  apply Hnone; discriminate.
Defined.

Lemma empty_result_iff_no_labelled_row_witness :
  demo_run batch_no_labels =
    (Return (demo_results batch_no_labels), snd (demo_run batch_no_labels)) /\
  demo_results batch_no_labels = ∅ /\
  console (snd (demo_run batch_no_labels)) =
    ["train_and_evaluate: no valid data after prepare_features"] /\
  model (self (snd (demo_run batch_no_labels))) = NoModel.
Proof.
  split; [exact demo_run_batch_no_labels|].
  destruct (empty_result_iff_no_labelled_row (RT:=demo_runtime) (SK:=demo_sklearn)
              demo_now batch_no_labels demo_world _ _ demo_run_batch_no_labels)
    as (Hiff & Hempty & _).
  assert (He : demo_results batch_no_labels = ∅)
    by (apply Hiff; right; vm_compute; reflexivity).
  destruct (Hempty He) as (Hc & _ & Hm & _).
  split; [exact He|]. split; [rewrite Hc; reflexivity|rewrite Hm; reflexivity].
Defined.

Lemma high_value_set_for_upper_half_witness :
  demo_prepare batch5 = (Return (demo_prepared batch5), snd (demo_prepare batch5)) /\
  empty batch5 = false /\
  (5 <= 2 * length (List.filter (fun r => fge (num "is_high_value" r) (of_Z 1))
                      (rows (demo_prepared batch5))))%nat.
Proof.
  split; [exact demo_prepare_batch5|]. split; [reflexivity|].
  destruct (high_value_set_for_upper_half (RT:=demo_runtime) (SK:=demo_sklearn)
              demo_now batch5 _ demo_world _ demo_prepare_batch5 eq_refl)
    as [_ Hhalf].
  change 5%nat with (length (rows (demo_prepared batch5))) at 1.
  apply Hhalf.
  - repeat (apply Forall_cons_2; [vm_compute; reflexivity|]). apply Forall_nil_2.
  - repeat (apply Forall_cons_2; [eexists; vm_compute; reflexivity|]).
    apply Forall_nil_2.
Defined.

Lemma prepare_features_idempotent_witness :
  demo_prepare batch5 = (Return (demo_prepared batch5), snd (demo_prepare batch5)) /\
  empty batch5 = false /\
  normalize demo_later = normalize demo_now /\
  prepare_features (RT:=demo_runtime) (SK:=demo_sklearn) demo_later
      (demo_prepared batch5) demo_world =
    (Return (demo_prepared batch5),
     {| self := set_feature_names feature_cols (self demo_world); console := [] |}).
Proof.
  split; [exact demo_prepare_batch5|]. split; [reflexivity|].
  split; [vm_compute; reflexivity|].
  apply (prepare_features_idempotent (RT:=demo_runtime) (SK:=demo_sklearn)
           demo_now demo_later batch5 _ demo_world _ demo_world
           demo_prepare_batch5 eq_refl).
  - repeat (apply Forall_cons_2; [vm_compute; reflexivity|]). apply Forall_nil_2.
  - vm_compute. reflexivity.
Defined.
